(** * Slack event-relay bridge of the Continue CLI

    A shallow embedding of
    - [extensions/cli/src/integrations/slack/webhook.ts]
      ([verifySlackSignature], [handleSlackWebhook], [isDirectMessage],
      [isBotMentioned], [extractMessageText]),
    - [extensions/cli/src/integrations/slack/client.ts] ([SlackClient]),
    - [extensions/cli/src/integrations/slack/slackIntegration.ts]
      ([setupWebhook], [handleEvent], [pollAndSendResults]),
    and theorems about signature checking, the in-flight set that
    de-duplicates deliveries, and the polling session.

    Modelling choices.
    - JavaScript strings are byte strings (their UTF-8 encoding, which is
      what [Buffer.from(s, "utf8")] produces).
    - A JavaScript number holding an integer is a [Z] (exact, as numbers
      are below 2^53); [NaN] is a value of its own ([JsNum]).
    - An [async] function is a resumption ([prog]): synchronous steps on
      the shared memory ([Sync]) and suspension points ([Await]) at which
      the outside world answers.  [throw], [try/catch] and [try/finally]
      are operations on resumptions.
    - The outside world is reached through [fetch] only.  One suspension
      point stands for [await fetch(...)] together with the
      [await response.json()] that follows it; the answer ([fetched]) says
      whether the request was rejected, and otherwise gives [response.ok],
      [response.status] and the outcome of parsing the body.  Bodies have
      the shape the code reads them with.
    - The shared memory ([Sys]) holds the [processingMessages] set, the
      table of intervals created by [setInterval] together with the
      variables their callbacks close over, and the log written through
      [logger].
    - [Date.now()], the HMAC of Node's [crypto], [JSON.stringify],
      [formatError] of [util/formatError.js] and the regular expression
      engine behind [new RegExp] are parameters.  Compiling a pattern either
      throws a [SyntaxError] or gives an expression; [extractMessageText]
      and, through it, [handleEvent] throw in the first case.
    - What [handleSlackWebhook] sends through [res] and passes to
      [logger.warn] is kept in an [Exchange]; the request body is the
      parsed payload.
    - The timer ([fire], [run_ticks]) calls the callback of an interval
      once per second until the interval is cleared; the statements about
      sessions take every call of the callback to have completed before
      the next one starts. *)

From Stdlib Require Import ZArith Lia Ascii String List.
From stdpp Require Import base decidable option list strings gmap pretty.

Local Open Scope string_scope.
Local Open Scope Z_scope.

(** ** JavaScript values *)

(** An [Error] object, identified by its message. *)
Inductive JsError : Type :=
| Error (message : string).

(** How a call completes: normally, or by throwing. *)
Inductive completion (A : Type) : Type :=
| Returned (a : A)
| Threw (e : JsError).
Arguments Returned {A} a.
Arguments Threw {A} e.

(** The result of an arithmetic expression on an integer-valued number. *)
Inductive JsNum : Type :=
| NaN
| Num (z : Z).

(** [a - b] *)
Definition js_sub (a b : JsNum) : JsNum :=
  match a, b with
  | Num x, Num y => Num (x - y)
  | _, _ => NaN
  end.

(** [Math.abs(a)] *)
Definition Math_abs (a : JsNum) : JsNum :=
  match a with
  | Num x => Num (Z.abs x)
  | NaN => NaN
  end.

(** [a > b]: every comparison with [NaN] is false. *)
Definition js_gt (a b : JsNum) : bool :=
  match a, b with
  | Num x, Num y => y <? x
  | _, _ => false
  end.

(** [Math.floor(ms / 1000)] for an integer number of milliseconds. *)
Definition Math_floor_div (ms d : Z) : JsNum := Num (ms / d).

(** ** Strings *)

Module JsString.

Definition byte (n : nat) : ascii := ascii_of_nat n.

Definition is_byte (n : nat) (c : ascii) : bool := Nat.eqb (nat_of_ascii c) n.

(** One-byte white space: TAB, LF, VT, FF, CR, SPACE. *)
Definition ws1 (c : ascii) : bool :=
  let n := nat_of_ascii c in
  (Nat.leb 9 n && Nat.leb n 13) || Nat.eqb n 32.

(** Two-byte white space: U+00A0 (C2 A0). *)
Definition ws2 (c1 c2 : ascii) : bool :=
  is_byte 194 c1 && is_byte 160 c2.

(** Three-byte white space and line terminators: U+1680, U+2000..U+200A,
    U+2028, U+2029, U+202F, U+205F, U+3000, U+FEFF. *)
Definition ws3 (c1 c2 c3 : ascii) : bool :=
  let n3 := nat_of_ascii c3 in
  (is_byte 225 c1 && is_byte 154 c2 && is_byte 128 c3)
  || (is_byte 226 c1 && is_byte 128 c2
      && ((Nat.leb 128 n3 && Nat.leb n3 138)
          || Nat.eqb n3 168 || Nat.eqb n3 169 || Nat.eqb n3 175))
  || (is_byte 226 c1 && is_byte 129 c2 && is_byte 159 c3)
  || (is_byte 227 c1 && is_byte 128 c2 && is_byte 128 c3)
  || (is_byte 239 c1 && is_byte 187 c2 && is_byte 191 c3).

(** [s.trimStart()] *)
Fixpoint trimStart (s : string) : string :=
  match s with
  | EmptyString => s
  | String c1 r1 =>
      if ws1 c1 then trimStart r1
      else match r1 with
           | EmptyString => s
           | String c2 r2 =>
               if ws2 c1 c2 then trimStart r2
               else match r2 with
                    | EmptyString => s
                    | String c3 r3 => if ws3 c1 c2 c3 then trimStart r3 else s
                    end
           end
  end.

(** [trimStart] on the reversed string: the white-space encodings are
    read backwards. *)
Fixpoint trimStart_rev (s : string) : string :=
  match s with
  | EmptyString => s
  | String c1 r1 =>
      if ws1 c1 then trimStart_rev r1
      else match r1 with
           | EmptyString => s
           | String c2 r2 =>
               if ws2 c2 c1 then trimStart_rev r2
               else match r2 with
                    | EmptyString => s
                    | String c3 r3 => if ws3 c3 c2 c1 then trimStart_rev r3 else s
                    end
           end
  end.

(** [s.trimEnd()] *)
Definition trimEnd (s : string) : string :=
  String.rev (trimStart_rev (String.rev s)).

(** [s.trim()] *)
Definition trim (s : string) : string := trimEnd (trimStart s).

(** [s.includes(t)] *)
Fixpoint includes (s t : string) : bool :=
  String.prefix t s
  || match s with
     | EmptyString => false
     | String _ r => includes r t
     end.

(** [s.replace(new RegExp(t, "g"), "")] for a pattern [t] without regular
    expression operators: every occurrence of [t], found left to right
    and without overlap, is removed.  [skip] counts the bytes of the
    current match that are still to be dropped. *)
Fixpoint remove_from (skip : nat) (t s : string) : string :=
  match s with
  | EmptyString => EmptyString
  | String c r =>
      match skip with
      | S k => remove_from k t r
      | O =>
          if String.prefix t s
          then remove_from (Nat.pred (String.length t)) t r
          else String c (remove_from O t r)
      end
  end.

Definition removeAll (s t : string) : string :=
  match t with
  | EmptyString => s
  | _ => remove_from O t s
  end.

(** Truthiness of a string: only [""] is falsy. *)
Definition truthy (s : string) : bool :=
  match s with
  | EmptyString => false
  | _ => true
  end.

Definition digit (c : ascii) : option Z :=
  let n := nat_of_ascii c in
  if Nat.leb 48 n && Nat.leb n 57 then Some (Z.of_nat (n - 48)) else None.

(** The longest prefix of decimal digits, read as a number; [None] when
    the string does not start with a digit. *)
Fixpoint digits (acc : option Z) (s : string) : option Z :=
  match s with
  | EmptyString => acc
  | String c r =>
      match digit c with
      | Some d => digits (Some (10 * default 0 acc + d)) r
      | None => acc
      end
  end.

(** [parseInt(s, 10)]: leading white space is skipped, a sign is
    accepted, the digits that follow are read and the rest is ignored;
    without a digit the result is [NaN]. *)
Definition parseInt (s : string) : JsNum :=
  let body := trimStart s in
  let '(sign, rest) :=
    match body with
    | String "-" r => (-1, r)
    | String "+" r => (1, r)
    | _ => (1, body)
    end in
  match digits None rest with
  | Some n => Num (sign * n)
  | None => NaN
  end.

End JsString.

(** ** Data of the Slack integration *)

(** [SlackEvent] (webhook.ts). *)
Record SlackEvent : Type := {
  type : string;
  event_ts : string;
  user : string;
  text : string;
  channel : string;
  channel_type : option string
}.

(** [SlackWebhookPayload] (webhook.ts). *)
Record SlackWebhookPayload : Type := {
  token : string;
  team_id : string;
  api_app_id : string;
  event : SlackEvent;
  payload_type : string;
  event_id : string;
  event_time : Z;
  challenge : option string
}.

(** [SlackIntegrationConfig] (slackIntegration.ts). *)
Record SlackIntegrationConfig : Type := {
  signingSecret : string;
  botToken : string;
  botUserId : string;
  continueApiUrl : string
}.

(** [SlackMessage] (client.ts). *)
Record SlackMessage : Type := {
  msg_channel : string;
  msg_text : string;
  thread_ts : option string
}.

(** [SlackMessageResponse] (client.ts). *)
Record SlackMessageResponse : Type := {
  ok : bool;
  resp_channel : option string;
  ts : option string;
  error : option string
}.

(** The state reported by [GET {continueApiUrl}/state], as far as
    [pollAndSendResults] reads it: [state.history] may be missing, and so
    may the [message] of an entry. *)
Record ChatMessage : Type := {
  role : string;
  content : string
}.

Record HistoryItem : Type := {
  message : option ChatMessage
}.

Record ContinueState : Type := {
  history : option (list HistoryItem);
  isProcessing : bool;
  queueLength : Z
}.

(** ** The outside world *)

(** The HTTP requests the integration sends with [fetch]. *)
Inductive call : Type :=
| SlackPostMessage (bearer : string) (body : SlackMessage)
    (* POST https://slack.com/api/chat.postMessage *)
| SlackUpdate (bearer : string) (body_channel body_ts body_text : string)
    (* POST https://slack.com/api/chat.update *)
| SlackPostEphemeral (bearer : string) (body_channel body_user body_text : string)
    (* POST https://slack.com/api/chat.postEphemeral *)
| ContinueMessage (url : string) (body_message : string)
    (* POST url, body {message} *)
| ContinueGet (url : string).
    (* GET url *)

(** What [await fetch(...)] followed by [await response.json()] gives:
    the promise of [fetch] is rejected, or there is a response with its
    [ok] flag, its [status] and the outcome of parsing its body. *)
Inductive fetched (A : Type) : Type :=
| Rejected (e : JsError)
| Response (response_ok : bool) (status : nat) (json : completion A).
Arguments Rejected {A} e.
Arguments Response {A} response_ok status json.

Definition resp (c : call) : Type :=
  match c with
  | SlackPostMessage _ _ => fetched SlackMessageResponse
  | SlackUpdate _ _ _ _ => fetched SlackMessageResponse
  | SlackPostEphemeral _ _ _ _ => fetched SlackMessageResponse
  | ContinueMessage _ _ => fetched unit
  | ContinueGet _ => fetched ContinueState
  end.

(** ** Shared memory *)

(** An interval created by [setInterval] in [pollAndSendResults], with
    the variables its callback closes over ([channel], [user],
    [messageTs], [polls], [lastMessageCount]); [cleared] records
    [clearInterval]. *)
Record Interval : Type := {
  cb_channel : string;
  cb_user : string;
  cb_messageTs : string;
  polls : nat;
  lastMessageCount : nat;
  cleared : bool
}.

Inductive LogLevel : Type := Info | Err.

Record Sys : Type := {
  processingMessages : gset string;
  intervals : list Interval;
  logs : list (LogLevel * string)
}.

Definition with_processingMessages (f : gset string -> gset string) (s : Sys) : Sys :=
  {| processingMessages := f (processingMessages s);
     intervals := intervals s;
     logs := logs s |}.

Definition with_intervals (f : list Interval -> list Interval) (s : Sys) : Sys :=
  {| processingMessages := processingMessages s;
     intervals := f (intervals s);
     logs := logs s |}.

Definition with_logs (f : list (LogLevel * string) -> list (LogLevel * string)) (s : Sys) : Sys :=
  {| processingMessages := processingMessages s;
     intervals := intervals s;
     logs := f (logs s) |}.

(** ** Asynchronous functions as resumptions *)

Inductive prog (A : Type) : Type :=
| Ret (a : A)
| Throw (e : JsError)
| Sync {X : Type} (f : Sys -> X * Sys) (k : X -> prog A)
| Await (c : call) (k : resp c -> prog A).
Arguments Ret {A} a.
Arguments Throw {A} e.
Arguments Sync {A X} f k.
Arguments Await {A} c k.

Fixpoint bind {A B : Type} (p : prog A) (f : A -> prog B) : prog B :=
  match p with
  | Ret a => f a
  | Throw e => Throw e
  | Sync g k => Sync g (fun x => bind (k x) f)
  | Await c k => Await c (fun r => bind (k r) f)
  end.

(** [try { p } catch (error) { h error }] *)
Fixpoint try_catch {A : Type} (p : prog A) (h : JsError -> prog A) : prog A :=
  match p with
  | Ret a => Ret a
  | Throw e => h e
  | Sync g k => Sync g (fun x => try_catch (k x) h)
  | Await c k => Await c (fun r => try_catch (k r) h)
  end.

(** [try { p } finally { fin }]: [fin] runs on every way out of [p]. *)
Fixpoint try_finally {A : Type} (p : prog A) (fin : prog unit) : prog A :=
  match p with
  | Ret a => bind fin (fun _ => Ret a)
  | Throw e => bind fin (fun _ => Throw e)
  | Sync g k => Sync g (fun x => try_finally (k x) fin)
  | Await c k => Await c (fun r => try_finally (k r) fin)
  end.

Declare Scope prog_scope.
Delimit Scope prog_scope with prog.
Bind Scope prog_scope with prog.

Notation "x <- p ;; q" := (bind p (fun x => q))
  (at level 100, p at next level, right associativity) : prog_scope.
Notation "p ;; q" := (bind p (fun _ => q))
  (at level 100, right associativity) : prog_scope.

(** A synchronous step that only reads or only writes. *)
Definition read {X : Type} (f : Sys -> X) : prog X :=
  Sync (fun s => (f s, s)) Ret.

Definition write (f : Sys -> Sys) : prog unit :=
  Sync (fun s => (tt, f s)) Ret.

(** [await fetch(...)] and [await response.json()]. *)
Definition fetch (c : call) : prog (resp c) := Await c Ret.

Definition response_json {A : Type} (j : completion A) : prog A :=
  match j with
  | Returned a => Ret a
  | Threw e => Throw e
  end.

(** A call of a synchronous function that may throw. *)
Definition call_sync {A : Type} (c : completion A) : prog A :=
  match c with
  | Returned a => Ret a
  | Threw e => Throw e
  end.

(** [logger.info], [logger.error] *)
Definition logger_info (m : string) : prog unit :=
  write (with_logs (fun l => (l ++ [(Info, m)])%list)).

Definition logger_error (m : string) : prog unit :=
  write (with_logs (fun l => (l ++ [(Err, m)])%list)).

(** ** Running resumptions *)

(** What a run leaves behind: how the function completed, the shared
    memory, the state of the outside world and the requests sent, in
    order. *)
Record Run (W A : Type) : Type := {
  completed : completion A;
  memory : Sys;
  outside : W;
  trace : list call
}.
Arguments completed {W A} r.
Arguments memory {W A} r.
Arguments outside {W A} r.
Arguments trace {W A} r.

(** Where a resumption stands after its synchronous steps. *)
Inductive status (A : Type) : Type :=
| Finished (c : completion A)
| Blocked (c : call) (k : resp c -> prog A).
Arguments Finished {A} c.
Arguments Blocked {A} c k.

(** Run up to the next suspension point. *)
Fixpoint advance {A : Type} (p : prog A) (s : Sys) : status A * Sys :=
  match p with
  | Ret a => (Finished (Returned a), s)
  | Throw e => (Finished (Threw e), s)
  | Sync f k => let '(x, s') := f s in advance (k x) s'
  | Await c k => (Blocked c k, s)
  end.

Section Worlds.

(** The outside world answers every request and may change while doing
    so. *)
Variable W : Type.
Variable world : forall c : call, W -> resp c * W.

(** Run to completion, nothing else running in between. *)
Fixpoint run {A : Type} (p : prog A) (s : Sys) (w : W) : Run W A :=
  match p with
  | Ret a => {| completed := Returned a; memory := s; outside := w; trace := [] |}
  | Throw e => {| completed := Threw e; memory := s; outside := w; trace := [] |}
  | Sync f k => let '(x, s') := f s in run (k x) s' w
  | Await c k =>
      let '(r, w') := world c w in
      let res := run (k r) s w' in
      {| completed := completed res; memory := memory res;
         outside := outside res; trace := c :: trace res |}
  end.

(** Run through at most [n] suspension points and stop at the next one,
    nothing else running in between. *)
Fixpoint run_steps {A : Type} (n : nat) (p : prog A) (s : Sys) (w : W)
  : status A * Sys * W :=
  match advance p s with
  | (Finished c, s') => (Finished c, s', w)
  | (Blocked c k, s') =>
      match n with
      | O => (Blocked c k, s', w)
      | S n' => let '(r, w') := world c w in run_steps n' (k r) s' w'
      end
  end.

End Worlds.

Arguments run {W} world {A} p s w.
Arguments run_steps {W} world {A} n p s w.

(** A world without memory that gives the same answer to every request
    of a kind. *)
Record Script : Type := {
  slack_answer : fetched SlackMessageResponse;
  message_answer : fetched unit;
  state_answer : fetched ContinueState
}.

Definition scripted (sc : Script) (c : call) (w : unit) : resp c * unit :=
  match c as c0 return resp c0 * unit with
  | SlackPostMessage _ _ => (slack_answer sc, w)
  | SlackUpdate _ _ _ _ => (slack_answer sc, w)
  | SlackPostEphemeral _ _ _ _ => (slack_answer sc, w)
  | ContinueMessage _ _ => (message_answer sc, w)
  | ContinueGet _ => (state_answer sc, w)
  end.

Definition slack_ok (t : string) : fetched SlackMessageResponse :=
  Response true 200
    (Returned {| ok := true; resp_channel := Some "C1"; ts := Some t; error := None |}).

Definition state_of (st : ContinueState) : fetched ContinueState :=
  Response true 200 (Returned st).

Definition user_entry (c : string) : HistoryItem :=
  {| message := Some {| role := "user"; content := c |} |}.

Definition assistant_entry (c : string) : HistoryItem :=
  {| message := Some {| role := "assistant"; content := c |} |}.

Definition empty_sys : Sys :=
  {| processingMessages := ∅; intervals := []; logs := [] |}.

(** ** webhook.ts *)

(** [isDirectMessage] *)
Definition isDirectMessage (ev : SlackEvent) : bool :=
  match channel_type ev with
  | Some k => String.eqb k "im"
  | None => false
  end.

(** The mention token [<@botUserId>]. *)
Definition mention (botUserId : string) : string := "<@" ++ botUserId ++ ">".

(** [isBotMentioned] *)
Definition isBotMentioned (txt botUserId : string) : bool :=
  JsString.includes txt (mention botUserId).

(** A compiled regular expression with the [g] flag, as far as the code
    uses one: what [s.replace(re, "")] gives for a string [s]. *)
Definition RegExp : Type := string -> string.

(** [extractMessageText].  The source compiles the mention token as a
    pattern, [new RegExp(`<@${botUserId}>`, "g")]; [new_RegExp] is that
    constructor, which throws a [SyntaxError] when the pattern is not a
    regular expression.  Every match is replaced by the empty string and
    the rest is trimmed. *)
Definition extractMessageText (new_RegExp : string -> completion RegExp)
    (txt botUserId : string) : completion string :=
  match new_RegExp (mention botUserId) with
  | Returned re => Returned (JsString.trim (re txt))
  | Threw e => Threw e
  end.

(** [crypto.timingSafeEqual(Buffer.from(a, "utf8"), Buffer.from(b, "utf8"))]
    of Node: a [RangeError] when the byte lengths differ, the comparison
    otherwise. *)
Definition timingSafeEqual (a b : string) : completion bool :=
  if Nat.eqb (String.length a) (String.length b)
  then Returned (String.eqb a b)
  else Threw (Error "Input buffers must have the same byte length").

Section Signature.

(** [crypto.createHmac("sha256", key).update(data, "utf8").digest("hex")] *)
Variable hmac_sha256_hex : string -> string -> string.

(** The signature Slack computes for a request. *)
Definition mySignature (signingSecret timestamp body : string) : string :=
  "v0=" ++ hmac_sha256_hex signingSecret ("v0:" ++ timestamp ++ ":" ++ body).

(** [verifySlackSignature]; [now_ms] is what [Date.now()] returns. *)
Definition verifySlackSignature (now_ms : Z)
    (signingSecret requestSignature timestamp body : string) : completion bool :=
  let time := Math_floor_div now_ms 1000 in
  let timestampNum := JsString.parseInt timestamp in
  if js_gt (Math_abs (js_sub time timestampNum)) (Num 300)
  then Returned false
  else timingSafeEqual (mySignature signingSecret timestamp body) requestSignature.

End Signature.

Local Open Scope prog_scope.

(** Truthiness of an optional string ([undefined] and [""] are falsy). *)
Definition truthy_opt (o : option string) : bool :=
  match o with
  | Some s => JsString.truthy s
  | None => false
  end.

(** An optional string inside a template literal. *)
Definition template_opt (o : option string) : string :=
  match o with
  | Some s => s
  | None => "undefined"
  end.

(** [processingMessages.has], [.add], [.delete] *)
Definition processingMessages_has (k : string) : prog bool :=
  read (fun s => bool_decide (k ∈ processingMessages s)).

Definition processingMessages_add (k : string) : prog unit :=
  write (with_processingMessages (fun m => {[ k ]} ∪ m)).

Definition processingMessages_delete (k : string) : prog unit :=
  write (with_processingMessages (fun m => m ∖ {[ k ]})).

(** [setInterval(callback, 1000)] in [pollAndSendResults]: a new interval
    whose callback starts with [polls = 0] and [lastMessageCount = 0]. *)
Definition setInterval (ch u messageTs : string) : prog nat :=
  Sync (fun s =>
          (length (intervals s),
           with_intervals
             (fun l => (l ++ [{| cb_channel := ch; cb_user := u;
                                cb_messageTs := messageTs; polls := O;
                                lastMessageCount := O; cleared := false |}])%list) s))
       Ret.

Definition update_interval (id : nat) (f : Interval -> Interval) (s : Sys) : Sys :=
  match intervals s !! id with
  | Some iv => with_intervals (fun l => <[ id := f iv ]> l) s
  | None => s
  end.

(** [clearInterval(pollInterval)] *)
Definition clearInterval (id : nat) : prog unit :=
  write (update_interval id (fun iv =>
    {| cb_channel := cb_channel iv; cb_user := cb_user iv;
       cb_messageTs := cb_messageTs iv; polls := polls iv;
       lastMessageCount := lastMessageCount iv; cleared := true |})).

(** [polls++], giving the new value of [polls]. *)
Definition incr_polls (id : nat) : prog nat :=
  Sync (fun s =>
          let s' := update_interval id (fun iv =>
            {| cb_channel := cb_channel iv; cb_user := cb_user iv;
               cb_messageTs := cb_messageTs iv; polls := S (polls iv);
               lastMessageCount := lastMessageCount iv; cleared := cleared iv |}) s in
          (from_option polls O (intervals s' !! id), s'))
       Ret.

(** Reading [lastMessageCount]. *)
Definition get_lastMessageCount (id : nat) : prog nat :=
  read (fun s => from_option lastMessageCount O (intervals s !! id)).

(** [lastMessageCount = n] *)
Definition set_lastMessageCount (id n : nat) : prog unit :=
  write (update_interval id (fun iv =>
    {| cb_channel := cb_channel iv; cb_user := cb_user iv;
       cb_messageTs := cb_messageTs iv; polls := polls iv;
       lastMessageCount := n; cleared := cleared iv |})).

(** The texts the integration sends. *)
Definition nl : string := String (ascii_of_nat 10) EmptyString.

Definition please_provide_text : string :=
  "Please provide a message for me to process.".
Definition processing_text : string := "🤖 Processing your request...".
Definition queued_text : string :=
  "✅ Your request has been queued. I'll send you the results when complete.".
Definition timeout_text : string :=
  "⏱️ Request timed out. The agent may still be processing in the background.".
Definition complete_text (c : string) : string := "✅ Complete!" ++ nl ++ nl ++ c.
Definition processing_complete_text : string := "✅ Processing complete.".

(** [const maxPolls = 300] *)
Definition maxPolls : nat := 300.

Section Integration.

(** [formatError] of [util/formatError.js]. *)
Variable formatError : JsError -> string.

(** [new RegExp(pattern, "g")] *)
Variable new_RegExp : string -> completion RegExp.

(** *** client.ts, for a client built with [new SlackClient(bearer)] *)

Definition failed (error0 : JsError) : SlackMessageResponse :=
  {| ok := false; resp_channel := None; ts := None;
     error := Some (formatError error0) |}.

(** The part the three methods share: [fetch], [response.json()], a log
    entry when [data.ok] is false, and the [catch] that turns an
    exception into a failure value. *)
Definition slack_request (c : call) (failure thrown : string)
    (r : fetched SlackMessageResponse) : prog SlackMessageResponse :=
  try_catch
    (match r with
     | Rejected e => Throw e
     | Response _ _ j =>
         data <- response_json j ;;
         (if negb (ok data)
          then logger_error (failure ++ template_opt (error data))
          else Ret tt) ;;
         Ret data
     end)
    (fun error0 =>
       logger_error (thrown ++ formatError error0) ;;
       Ret (failed error0)).

(** [postMessage] *)
Definition postMessage (bearer : string) (m : SlackMessage) : prog SlackMessageResponse :=
  Await (SlackPostMessage bearer m)
    (slack_request (SlackPostMessage bearer m)
       "Failed to post Slack message: " "Error posting Slack message: ").

(** [updateMessage] *)
Definition updateMessage (bearer ch t txt : string) : prog SlackMessageResponse :=
  Await (SlackUpdate bearer ch t txt)
    (slack_request (SlackUpdate bearer ch t txt)
       "Failed to update Slack message: " "Error updating Slack message: ").

(** [postEphemeral] *)
Definition postEphemeral (bearer ch u txt : string) : prog SlackMessageResponse :=
  Await (SlackPostEphemeral bearer ch u txt)
    (slack_request (SlackPostEphemeral bearer ch u txt)
       "Failed to post ephemeral message: " "Error posting ephemeral message: ").

(** *** slackIntegration.ts *)

Variable config : SlackIntegrationConfig.

(** [`${event.channel}:${event.event_ts}`] *)
Definition messageId (ev : SlackEvent) : string :=
  channel ev ++ ":" ++ event_ts ev.

(** [new Error(`Continue API returned ${response.status}`)] *)
Definition api_error (st : nat) : JsError :=
  Error ("Continue API returned " ++ pretty st).

(** [pollAndSendResults]: the function only starts the interval; its
    callback is [tick]. *)
Definition pollAndSendResults (ch u messageTs : string) : prog unit :=
  _ <- setInterval ch u messageTs ;; Ret tt.

(** The newest entry of a history, when it is an assistant's. *)
Definition assistant_content (h : list HistoryItem) : option string :=
  match last h with
  | Some {| message := Some m |} =>
      if String.eqb (role m) "assistant" then Some (content m) else None
  | _ => None
  end.

(** The [try] block of the interval callback. *)
Definition poll_state (id : nat) (ch messageTs : string) : prog unit :=
  response <- fetch (ContinueGet (continueApiUrl config ++ "/state")) ;;
  match response with
  | Rejected e => Throw e
  | Response response_ok st j =>
      if negb response_ok then Throw (api_error st)
      else
        state <- response_json j ;;
        lastCount <- get_lastMessageCount id ;;
        (match history state with
         | Some h =>
             if Nat.ltb lastCount (length h)
             then
               set_lastMessageCount id (length h) ;;
               match assistant_content h with
               | Some c =>
                   if JsString.truthy c && JsString.truthy (JsString.trim c)
                   then _ <- updateMessage (botToken config) ch messageTs
                               (complete_text c) ;; Ret tt
                   else Ret tt
               | None => Ret tt
               end
             else Ret tt
         | None => Ret tt
         end) ;;
        if negb (isProcessing state) && Z.eqb (queueLength state) 0
        then
          clearInterval id ;;
          lastCount' <- get_lastMessageCount id ;;
          if Nat.eqb lastCount' 0
          then _ <- updateMessage (botToken config) ch messageTs
                      processing_complete_text ;; Ret tt
          else Ret tt
        else Ret tt
  end.

(** The callback given to [setInterval]. *)
Definition tick (id : nat) (ch messageTs : string) : prog unit :=
  n <- incr_polls id ;;
  if Nat.ltb maxPolls n
  then
    clearInterval id ;;
    _ <- updateMessage (botToken config) ch messageTs timeout_text ;;
    Ret tt
  else
    try_catch (poll_state id ch messageTs)
      (fun error0 =>
         logger_error ("Error polling Continue API: " ++ formatError error0) ;;
         clearInterval id ;;
         _ <- updateMessage (botToken config) ch messageTs
                ("❌ Error getting results: " ++ formatError error0) ;;
         Ret tt).

(** The timer of the runtime: one second has passed for interval [id].
    The callback is called unless the interval has been cleared. *)
Definition fire (id : nat) : prog unit :=
  iv <- read (fun s => intervals s !! id) ;;
  match iv with
  | Some i => if cleared i then Ret tt else tick id (cb_channel i) (cb_messageTs i)
  | None => Ret tt
  end.

(** The inner [try] block of [handleEvent]: the request to the Continue
    API. *)
Definition submit (ev : SlackEvent) (messageText ackTs : string) : prog unit :=
  response <- fetch (ContinueMessage (continueApiUrl config ++ "/message") messageText) ;;
  match response with
  | Rejected e => Throw e
  | Response response_ok st _ =>
      if negb response_ok then Throw (api_error st)
      else
        _ <- updateMessage (botToken config) (channel ev) ackTs queued_text ;;
        pollAndSendResults (channel ev) (user ev) ackTs
  end.

(** The outer [try] block of [handleEvent]. *)
Definition process (ev : SlackEvent) : prog unit :=
  processingMessages_add (messageId ev) ;;
  let isDM := isDirectMessage ev in
  if negb isDM && negb (isBotMentioned (text ev) (botUserId config))
  then Ret tt
  else
    logger_info ("Received " ++ (if isDM then "DM" else "mention")
                 ++ " from user " ++ user ev ++ " in channel " ++ channel ev) ;;
    messageText <- call_sync (extractMessageText new_RegExp (text ev) (botUserId config)) ;;
    if negb (JsString.truthy messageText)
    then
      _ <- postMessage (botToken config)
             {| msg_channel := channel ev; msg_text := please_provide_text;
                thread_ts := None |} ;;
      Ret tt
    else
      ackResponse <- postMessage (botToken config)
             {| msg_channel := channel ev; msg_text := processing_text;
                thread_ts := None |} ;;
      if negb (ok ackResponse) || negb (truthy_opt (ts ackResponse))
      then logger_error "Failed to send acknowledgment message"
      else
        let ackTs := default "" (ts ackResponse) in
        try_catch (submit ev messageText ackTs)
          (fun error0 =>
             logger_error ("Error sending to Continue API: " ++ formatError error0) ;;
             _ <- updateMessage (botToken config) (channel ev) ackTs
                    ("❌ Error processing your request: " ++ formatError error0) ;;
             Ret tt).

(** [handleEvent] *)
Definition handleEvent (payload : SlackWebhookPayload) : prog unit :=
  let ev := event payload in
  if negb (String.eqb (type ev) "message") then Ret tt
  else if String.eqb (user ev) (botUserId config) then Ret tt
  else
    held <- processingMessages_has (messageId ev) ;;
    if held then Ret tt
    else try_finally (process ev) (processingMessages_delete (messageId ev)).

End Integration.

(** ** The timer *)

Section Timer.

Variable formatError : JsError -> string.
Variable config : SlackIntegrationConfig.
Variable W : Type.
Variable world : forall c : call, W -> resp c * W.

(** [n] seconds pass for interval [id]; every callback has completed
    before the next second is over. *)
Fixpoint run_ticks (n : nat) (id : nat) (s : Sys) (w : W) : Run W unit :=
  match n with
  | O => {| completed := Returned tt; memory := s; outside := w; trace := [] |}
  | S n' =>
      let r := run world (fire formatError config id) s w in
      let r' := run_ticks n' id (memory r) (outside r) in
      {| completed := completed r'; memory := memory r'; outside := outside r';
         trace := (trace r ++ trace r')%list |}
  end.

End Timer.

Arguments run_ticks formatError config {W} world n id s w.

(** ** webhook.ts: the HTTP entry point *)

(** What [res] is asked to send. *)
Inductive HttpBody : Type :=
| JsonError (error_text : string)       (* res.json({ error }) *)
| JsonChallenge (challenge_text : string) (* res.json({ challenge }) *)
| NoBody.                               (* res.send() *)

Record HttpReply : Type := {
  reply_status : nat;
  reply_body : HttpBody
}.

(** The request as [handleSlackWebhook] reads it: the two headers, which
    may be missing, and the parsed JSON body. *)
Record WebRequest : Type := {
  x_slack_signature : option string;
  x_slack_request_timestamp : option string;
  req_body : SlackWebhookPayload
}.

(** What one call of [handleSlackWebhook] has done to its [res] object so
    far, and what it has passed to [logger.warn]. *)
Record Exchange : Type := {
  replies : list HttpReply;
  warnings : list string
}.

Definition no_exchange : Exchange := {| replies := []; warnings := [] |}.

(** A resumption that also writes to [res].  What was sent stays sent
    when an exception is thrown, so exceptions are values at this level. *)
Definition web (A : Type) : Type := Exchange -> prog (completion A * Exchange).

Definition web_bind {A B : Type} (m : web A) (f : A -> web B) : web B :=
  fun x =>
    r <- m x ;;
    match r with
    | (Returned a, x') => f a x'
    | (Threw e, x') => Ret (Threw e, x')
    end.

(** [try { m } catch (error) { h error }] *)
Definition web_try_catch {A : Type} (m : web A) (h : JsError -> web A) : web A :=
  fun x =>
    r <- m x ;;
    match r with
    | (Returned a, x') => Ret (Returned a, x')
    | (Threw e, x') => h e x'
    end.

(** A resumption that does not write to [res]. *)
Definition web_lift {A : Type} (p : prog A) : web A :=
  fun x =>
    try_catch (a <- p ;; Ret (Returned a, x)) (fun e => Ret (Threw e, x)).

(** A synchronous call that returns or throws. *)
Definition web_completion {A : Type} (c : completion A) : web A :=
  fun x => Ret (c, x).

(** [res.status(st).json(b)], [res.json(b)] (status 200) and
    [res.status(st).send()]. *)
Definition res_send (st : nat) (b : HttpBody) : web unit :=
  fun x =>
    Ret (Returned tt,
         {| replies := (replies x ++ [{| reply_status := st; reply_body := b |}])%list;
            warnings := warnings x |}).

(** [logger.warn] *)
Definition logger_warn (m : string) : web unit :=
  fun x =>
    Ret (Returned tt,
         {| replies := replies x; warnings := (warnings x ++ [m])%list |}).

Section Webhook.

Variable hmac_sha256_hex : string -> string -> string.
Variable formatError : JsError -> string.
Variable new_RegExp : string -> completion RegExp.

(** [JSON.stringify(req.body)] *)
Variable JSON_stringify : SlackWebhookPayload -> string.

(** [handleSlackWebhook]; [now_ms] is what [Date.now()] returns inside
    [verifySlackSignature]. *)
Definition handleSlackWebhook (now_ms : Z) (req : WebRequest) (secret : string)
    (onMessage : SlackWebhookPayload -> prog unit) : web unit :=
  web_try_catch
    (let signature := x_slack_signature req in
     let timestamp := x_slack_request_timestamp req in
     let rawBody := JSON_stringify (req_body req) in
     if negb (truthy_opt signature) || negb (truthy_opt timestamp)
     then
       web_bind (web_lift (logger_error "Missing Slack signature or timestamp"))
         (fun _ => res_send 401 (JsonError "Unauthorized"))
     else
       web_bind
         (web_completion
            (verifySlackSignature hmac_sha256_hex now_ms secret
               (default "" signature) (default "" timestamp) rawBody))
         (fun valid =>
            if negb valid
            then
              web_bind (web_lift (logger_error "Invalid Slack signature"))
                (fun _ => res_send 401 (JsonError "Unauthorized"))
            else
              let payload := req_body req in
              if String.eqb (payload_type payload) "url_verification"
                 && truthy_opt (challenge payload)
              then res_send 200 (JsonChallenge (default "" (challenge payload)))
              else if String.eqb (payload_type payload) "event_callback"
              then
                web_bind (res_send 200 NoBody)
                  (fun _ =>
                     web_try_catch (web_lift (onMessage payload))
                       (fun error0 =>
                          web_lift
                            (logger_error
                               ("Error processing Slack event: "
                                ++ formatError error0))))
              else
                web_bind
                  (logger_warn ("Unknown Slack event type: " ++ payload_type payload))
                  (fun _ => res_send 400 (JsonError "Unknown event type"))))
    (fun error0 =>
       web_bind
         (web_lift
            (logger_error ("Error handling Slack webhook: " ++ formatError error0)))
         (fun _ => res_send 500 (JsonError "Internal server error"))).

(** The handler [setupWebhook] registers for [POST /slack/events]. *)
Definition setupWebhook (config : SlackIntegrationConfig) (now_ms : Z)
    (req : WebRequest) : web unit :=
  handleSlackWebhook now_ms req (signingSecret config)
    (handleEvent formatError new_RegExp config).

End Webhook.

(** ** Vocabulary of the statements *)

(** The request edits a message to show the timeout notice. *)
Definition is_timeout_update (c : call) : bool :=
  match c with
  | SlackUpdate _ _ _ t => String.eqb t timeout_text
  | _ => false
  end.

(** The request edits a message to show content of the assistant: its
    text starts as [complete_text] does. *)
Definition is_content_update (c : call) : bool :=
  match c with
  | SlackUpdate _ _ _ t => String.prefix (complete_text "") t
  | _ => false
  end.

(** The request goes to the Slack API (post, update or ephemeral). *)
Definition is_relay (c : call) : bool :=
  match c with
  | SlackPostMessage _ _ | SlackUpdate _ _ _ _ | SlackPostEphemeral _ _ _ _ => true
  | _ => false
  end.

Definition is_update (c : call) : bool :=
  match c with
  | SlackUpdate _ _ _ _ => true
  | _ => false
  end.

Definition is_ephemeral (c : call) : bool :=
  match c with
  | SlackPostEphemeral _ _ _ _ => true
  | _ => false
  end.

(** The request asks the Continue API for its state. *)
Definition is_state_query (c : call) : bool :=
  match c with
  | ContinueGet _ => true
  | _ => false
  end.

(** How many requests of a trace are of a kind. *)
Definition count (p : call -> bool) (t : list call) : nat :=
  length (List.filter p t).

(** The history a state query shows to the callback, if it shows one. *)
Definition observed_history (r : fetched ContinueState) : option (list HistoryItem) :=
  match r with
  | Response true _ (Returned st) => history st
  | _ => None
  end.

(** The state a query reports, when the query succeeds. *)
Definition reported (r : fetched ContinueState) : option ContinueState :=
  match r with
  | Response true _ (Returned st) => Some st
  | _ => None
  end.

(** The message timestamp of an acknowledgement that [handleEvent]
    accepts. *)
Definition acknowledged (r : fetched SlackMessageResponse) : option string :=
  match r with
  | Response _ _ (Returned data) =>
      if ok data && truthy_opt (ts data) then ts data else None
  | _ => None
  end.

(** The error a submission ends with, if it fails. *)
Definition submission_error (r : fetched unit) : option JsError :=
  match r with
  | Rejected e => Some e
  | Response false st _ => Some (api_error st)
  | Response true _ _ => None
  end.

(** [handleEvent] goes past its three guards and the routing test. *)
Definition processable (config : SlackIntegrationConfig) (ev : SlackEvent) : Prop :=
  type ev = "message"
  /\ user ev <> botUserId config
  /\ (isDirectMessage ev = true \/ isBotMentioned (text ev) (botUserId config) = true).

(** [P] holds of the shared memory at every suspension point of [p]
    started in [s], whatever the outside world answers. *)
Fixpoint awaits_hold (P : Sys -> Prop) {A : Type} (p : prog A) (s : Sys) : Prop :=
  match p with
  | Ret _ => True
  | Throw _ => True
  | Sync f k => let '(x, s') := f s in awaits_hold P (k x) s'
  | Await c k => P s /\ forall r, awaits_hold P (k r) s
  end.

(** The request posts a new message. *)
Definition is_post (c : call) : bool :=
  match c with
  | SlackPostMessage _ _ => true
  | _ => false
  end.

(** The request submits a message to the Continue API. *)
Definition is_submission (c : call) : bool :=
  match c with
  | ContinueMessage _ _ => true
  | _ => false
  end.

(** The credential and the channel a request to Slack carries. *)
Definition relay_target (c : call) : option (string * string) :=
  match c with
  | SlackPostMessage b m => Some (b, msg_channel m)
  | SlackUpdate b ch _ _ => Some (b, ch)
  | SlackPostEphemeral b ch _ _ => Some (b, ch)
  | _ => None
  end.

(** The error a state query ends with, if it fails: the request is
    rejected, the status is not a success, or the body does not parse. *)
Definition query_error (r : fetched ContinueState) : option JsError :=
  match r with
  | Rejected e => Some e
  | Response false st _ => Some (api_error st)
  | Response true _ (Threw e) => Some e
  | Response true _ (Returned _) => None
  end.

(** The characters with a meaning of their own in a pattern (the
    [SyntaxCharacter]s of ECMAScript: the backslash, which has code 92,
    and the thirteen listed); every other character of a pattern stands
    for itself. *)
Definition syntax_character (c : ascii) : bool :=
  existsb (Ascii.eqb c)
    (ascii_of_nat 92
     :: ["^"; "$"; "."; "*"; "+"; "?"; "("; ")"; "["; "]"; "{"; "}"; "|"]%char).

(** No character of the string is a syntax character. *)
Fixpoint plain (s : string) : bool :=
  match s with
  | EmptyString => true
  | String c r => negb (syntax_character c) && plain r
  end.

(** The constructor compiles a pattern without syntax characters to the
    expression that matches the pattern as it is written: replacing its
    matches by the empty string removes the occurrences of the pattern,
    leftmost first, without overlap. *)
Definition compiles_plain_patterns (new_RegExp : string -> completion RegExp) : Prop :=
  forall p, plain p = true ->
    exists re, new_RegExp p = Returned re
               /\ forall txt, re txt = JsString.removeAll txt p.

(** The responses sent by a call of [handleSlackWebhook] that has
    completed. *)
Definition replies_of (c : completion (completion unit * Exchange)) : list HttpReply :=
  match c with
  | Returned (_, x) => replies x
  | Threw _ => []
  end.

(** ** Concrete data *)

Module Sample.

Definition formatError (e : JsError) : string :=
  match e with Error m => m end.

Definition hmac (key data : string) : string := key ++ "/" ++ data.

(** An engine for the samples: it compiles the patterns without syntax
    characters and rejects the others.  The samples use the patterns
    [<@U1>] and [<@U(>]; the second has a group that is not closed. *)
Definition new_RegExp (p : string) : completion RegExp :=
  if plain p then Returned (fun txt => JsString.removeAll txt p)
  else Threw (Error "Invalid regular expression").

Definition config : SlackIntegrationConfig :=
  {| signingSecret := "s3cr3t"; botToken := "xoxb-1"; botUserId := "U1";
     continueApiUrl := "http://localhost:8000" |}.

(** A configuration whose bot user id does not give a regular
    expression. *)
Definition unclosed : SlackIntegrationConfig :=
  {| signingSecret := "s3cr3t"; botToken := "xoxb-1"; botUserId := "U(";
     continueApiUrl := "http://localhost:8000" |}.

Definition ev (t : string) : SlackEvent :=
  {| type := "message"; event_ts := "1700000000.000100"; user := "U2";
     text := t; channel := "C1"; channel_type := Some "channel" |}.

Definition payload (t : string) : SlackWebhookPayload :=
  {| token := "t"; team_id := "T1"; api_app_id := "A1"; event := ev t;
     payload_type := "event_callback"; event_id := "Ev1";
     event_time := 1700000000; challenge := None |}.

Definition session : Interval :=
  {| cb_channel := "C1"; cb_user := "U2"; cb_messageTs := "1700000001.000200";
     polls := O; lastMessageCount := O; cleared := false |}.

Definition polling : Sys :=
  {| processingMessages := ∅; intervals := [session]; logs := [] |}.

Definition state (h : option (list HistoryItem)) (busy : bool) : ContinueState :=
  {| history := h; isProcessing := busy; queueLength := 0 |}.

(** Slack accepts every request, the Continue API accepts the message
    and reports the given state. *)
Definition friendly (st : ContinueState) : Script :=
  {| slack_answer := slack_ok "1700000001.000200";
     message_answer := Response true 200 (Returned tt);
     state_answer := state_of st |}.

(** As [friendly], but the Continue API answers the message with the
    given response. *)
Definition refusing (r : fetched unit) : Script :=
  {| slack_answer := slack_ok "1700000001.000200";
     message_answer := r;
     state_answer := state_of (state None true) |}.

Definition ack_message : SlackMessage :=
  {| msg_channel := "C1"; msg_text := processing_text; thread_ts := None |}.

(** The Continue API is still processing and shows no history. *)
Definition busy : Script := friendly (state None true).

(** The Continue API has finished; its history ends with the user's own
    message. *)
Definition finished_without_answer : Script :=
  friendly (state (Some [user_entry "hello"]) false).

(** The Continue API is processing and shows the assistant's answer. *)
Definition answering : Script :=
  friendly (state (Some [user_entry "hello"; assistant_entry "42"]) true).

(** The Continue API answers the message with status 500. *)
Definition failing : Script := refusing (Response false 500 (Returned tt)).

End Sample.

Module SampleWeb.

(** A stand-in for [JSON.stringify]. *)
Definition stringify (p : SlackWebhookPayload) : string :=
  "{type:" ++ payload_type p ++ ",text:" ++ text (event p) ++ "}".

Definition now : Z := 1700000000000.

Definition body (kind : string) (ch : option string) : SlackWebhookPayload :=
  {| token := "t"; team_id := "T1"; api_app_id := "A1";
     event := Sample.ev "<@U1> hello"; payload_type := kind; event_id := "Ev1";
     event_time := 1700000000; challenge := ch |}.

(** A request signed with the secret of [Sample.config]. *)
Definition signed (t : string) (p : SlackWebhookPayload) : WebRequest :=
  {| x_slack_signature := Some (mySignature Sample.hmac "s3cr3t" t (stringify p));
     x_slack_request_timestamp := Some t;
     req_body := p |}.

Definition unsigned (p : SlackWebhookPayload) : WebRequest :=
  {| x_slack_signature := None;
     x_slack_request_timestamp := Some "1700000000";
     req_body := p |}.

Definition badly_signed (t : string) (p : SlackWebhookPayload) : WebRequest :=
  {| x_slack_signature := Some "v0=bad";
     x_slack_request_timestamp := Some t;
     req_body := p |}.

(** Slack cannot be reached. *)
Definition slack_down : Script :=
  {| slack_answer := Rejected (Error "socket hang up");
     message_answer := Response true 200 (Returned tt);
     state_answer := state_of (Sample.state None true) |}.

(** The Continue API answers the state query with status 503. *)
Definition api_down : Script :=
  {| slack_answer := slack_ok "1700000001.000200";
     message_answer := Response true 200 (Returned tt);
     state_answer := Response false 503 (Returned (Sample.state None true)) |}.

(** The Continue API has finished and shows the assistant's answer. *)
Definition answered : Script :=
  Sample.friendly (Sample.state (Some [user_entry "hello"; assistant_entry "42"]) false).

(** The Continue API has finished and shows no history. *)
Definition finished_empty : Script := Sample.friendly (Sample.state None false).

Definition direct_message : SlackWebhookPayload :=
  {| token := "t"; team_id := "T1"; api_app_id := "A1";
     event := {| type := "message"; event_ts := "1700000000.000300"; user := "U2";
                 text := "  run the tests "; channel := "D1";
                 channel_type := Some "im" |};
     payload_type := "event_callback"; event_id := "Ev2";
     event_time := 1700000000; challenge := None |}.

Definition channel_chatter : SlackWebhookPayload :=
  {| token := "t"; team_id := "T1"; api_app_id := "A1";
     event := {| type := "message"; event_ts := "1700000000.000400"; user := "U2";
                 text := "nothing for the bot"; channel := "C1";
                 channel_type := Some "channel" |};
     payload_type := "event_callback"; event_id := "Ev3";
     event_time := 1700000000; challenge := None |}.

Definition reaction : SlackWebhookPayload :=
  {| token := "t"; team_id := "T1"; api_app_id := "A1";
     event := {| type := "reaction_added"; event_ts := "1700000000.000500";
                 user := "U2"; text := ""; channel := "C1";
                 channel_type := Some "channel" |};
     payload_type := "event_callback"; event_id := "Ev4";
     event_time := 1700000000; challenge := None |}.

Definition other_session : Interval :=
  {| cb_channel := "C2"; cb_user := "U3"; cb_messageTs := "1700000002.000100";
     polls := 7; lastMessageCount := 2; cleared := false |}.

Definition two_sessions : Sys :=
  {| processingMessages := ∅; intervals := [Sample.session; other_session];
     logs := [] |}.

End SampleWeb.

(** * Theorems *)

(** ** Sanity checks of the string primitives *)

Example trim_ex : JsString.trim "  hello world " = "hello world".
Proof. reflexivity. Qed.

Example parseInt_digits : JsString.parseInt "1700000000" = Num 1700000000.
Proof. reflexivity. Qed.

Example parseInt_prefix : JsString.parseInt " -12abc" = Num (-12).
Proof. reflexivity. Qed.

Example parseInt_letters : JsString.parseInt "abc" = NaN.
Proof. reflexivity. Qed.

Example parseInt_empty : JsString.parseInt "" = NaN.
Proof. reflexivity. Qed.

Example extract_hello :
  extractMessageText Sample.new_RegExp "<@U1> hello" "U1" = Returned "hello".
Proof. reflexivity. Qed.

Example extract_mention_only :
  extractMessageText Sample.new_RegExp "<@U1>" "U1" = Returned "".
Proof. reflexivity. Qed.

Example extract_unclosed_group :
  extractMessageText Sample.new_RegExp "<@U(> hello" "U("
  = Threw (Error "Invalid regular expression").
Proof. reflexivity. Qed.

Example mentioned_ex : isBotMentioned "hi <@U1>" "U1" = true.
Proof. reflexivity. Qed.

(** ** Signature verification *)

Lemma timingSafeEqual_refl (a : string) : timingSafeEqual a a = Returned true.
Proof.
  unfold timingSafeEqual.
  by rewrite Nat.eqb_refl, String.eqb_refl.
Qed.

Lemma timingSafeEqual_true (a b : string) :
  timingSafeEqual a b = Returned true <-> a = b.
Proof.
  split.
  - unfold timingSafeEqual.
    destruct (Nat.eqb _ _); [|discriminate].
    intros [= H]. by apply String.eqb_eq.
  - intros ->. apply timingSafeEqual_refl.
Qed.

(** Equal lengths: the comparison returns, and returns the equality. *)
Lemma timingSafeEqual_same_length (a b : string) :
  String.length a = String.length b ->
  timingSafeEqual a b = Returned (String.eqb a b).
Proof.
  intros H. unfold timingSafeEqual. by rewrite H, Nat.eqb_refl.
Qed.

(** Different lengths: the comparison throws. *)
Lemma timingSafeEqual_throws (a b : string) :
  String.length a <> String.length b ->
  exists e, timingSafeEqual a b = Threw e.
Proof.
  intros H. unfold timingSafeEqual.
  destruct (Nat.eqb_spec (String.length a) (String.length b)); [done|eauto].
Qed.

Section SignatureFacts.

Variable hmac : string -> string -> string.

(** A timestamp that parses and lies more than 300 seconds away from
    now: [false], nothing thrown, whatever the signature. *)
Lemma verify_rejects_stale now secret sig timestamp body t :
  JsString.parseInt timestamp = Num t ->
  300 < Z.abs (now / 1000 - t) ->
  verifySlackSignature hmac now secret sig timestamp body = Returned false.
Proof.
  intros Hp Hold. unfold verifySlackSignature. rewrite Hp. cbn.
  by apply Z.ltb_lt in Hold as ->.
Qed.

(** For a timestamp that parses, [true] is returned exactly for a fresh
    timestamp with the expected signature. *)
Lemma verify_parsed_true_iff now secret sig timestamp body t :
  JsString.parseInt timestamp = Num t ->
  verifySlackSignature hmac now secret sig timestamp body = Returned true
  <-> Z.abs (now / 1000 - t) <= 300
      /\ sig = mySignature hmac secret timestamp body.
Proof.
  intros Hp. unfold verifySlackSignature. rewrite Hp. cbn.
  destruct (Z.ltb_spec 300 (Z.abs (now / 1000 - t))) as [Hlt|Hle].
  - split; [discriminate | lia].
  - rewrite timingSafeEqual_true. split.
    + intros <-. done.
    + intros [_ ->]. done.
Qed.

(** C2, evaluated where the code departs from it: the timestamp header
    ["not-a-number"] does not parse, so it is not within 300 seconds of
    any time, yet with the signature computed for it [verifySlackSignature]
    returns [true], at every time and for every secret and body. *)
Theorem verify_accepts_unparsed_timestamp (now : Z) (secret body : string) :
  JsString.parseInt "not-a-number" = NaN
  /\ verifySlackSignature hmac now secret
       (mySignature hmac secret "not-a-number" body) "not-a-number" body
     = Returned true.
Proof.
  split; [reflexivity|].
  unfold verifySlackSignature.
  change (JsString.parseInt "not-a-number") with NaN. cbn.
  apply timingSafeEqual_refl.
Qed.

(** C9: for a timestamp header that does not parse to a number the
    300-second test does not reject; the result is that of comparing the
    supplied signature with the expected one, at every current time. *)
Theorem verify_unparsed_timestamp_falls_through
    (now : Z) (secret sig timestamp body : string) :
  JsString.parseInt timestamp = NaN ->
  verifySlackSignature hmac now secret sig timestamp body
  = timingSafeEqual (mySignature hmac secret timestamp body) sig
  /\ (forall now', verifySlackSignature hmac now' secret sig timestamp body
                   = verifySlackSignature hmac now secret sig timestamp body)
  /\ (verifySlackSignature hmac now secret sig timestamp body = Returned true
      <-> sig = mySignature hmac secret timestamp body).
Proof.
  intros Hp.
  assert (Hv : forall n, verifySlackSignature hmac n secret sig timestamp body
               = timingSafeEqual (mySignature hmac secret timestamp body) sig).
  { intros n. unfold verifySlackSignature. by rewrite Hp. }
  split; [apply Hv|]. split.
  - intros now'. by rewrite !Hv.
  - rewrite Hv, timingSafeEqual_true. split; congruence.
Qed.

End SignatureFacts.

(** ** The event-processing routine *)

#[local] Arguments JsString.trim : simpl never.
#[local] Arguments JsString.removeAll : simpl never.
#[local] Arguments JsString.includes : simpl never.
#[local] Arguments String.append : simpl never.
#[local] Arguments pretty : simpl never.
#[local] Arguments extractMessageText : simpl never.
#[local] Arguments isBotMentioned : simpl never.
#[local] Arguments isDirectMessage : simpl never.
#[local] Arguments messageId : simpl never.

(** The mention token of a bot user id without syntax characters has
    none either. *)
Lemma plain_app (a b : string) : plain (a ++ b) = plain a && plain b.
Proof.
  induction a as [|c a IH]; [done|].
  change (String c a ++ b) with (String c (a ++ b)).
  cbn [plain]. rewrite IH. by destruct (syntax_character c).
Qed.

Lemma plain_mention (botUserId : string) :
  plain (mention botUserId) = plain botUserId.
Proof.
  unfold mention. rewrite !plain_app.
  change (plain "<@") with true. change (plain ">") with true.
  by rewrite andb_true_r.
Qed.

(** For such an id the expression removes the token as it is written. *)
Lemma extractMessageText_plain new_RegExp (txt botUserId : string) :
  compiles_plain_patterns new_RegExp ->
  plain botUserId = true ->
  extractMessageText new_RegExp txt botUserId
  = Returned (JsString.trim (JsString.removeAll txt (mention botUserId))).
Proof.
  intros Hc Hp. unfold extractMessageText.
  destruct (Hc (mention botUserId)) as (re & -> & Hre).
  - by rewrite plain_mention.
  - by rewrite Hre.
Qed.

Lemma sample_engine_compiles_plain_patterns :
  compiles_plain_patterns Sample.new_RegExp.
Proof.
  intros p Hp. unfold Sample.new_RegExp. rewrite Hp. eauto.
Defined.

Section HandleEventFacts.

Variable formatError : JsError -> string.
Variable new_RegExp : string -> completion RegExp.
Variable config : SlackIntegrationConfig.
Variable W : Type.
Variable world : forall c : call, W -> resp c * W.

(** Symbolic execution: ask the world for its answer and look at every
    shape the answer can have; decide a test. *)
Ltac ask_world :=
  match goal with
  | |- context [world ?c ?w] =>
      let r := fresh "r" in
      let w' := fresh "w" in
      destruct (world c w) as [r w']; cbn in r;
      destruct r as [?|? ? [?|?]]
  end.

Ltac any_answer :=
  match goal with
  | |- forall r : resp _, _ =>
      let r := fresh "r" in
      intros r; cbn in r; destruct r as [?|? ? [?|?]]
  | |- forall r : fetched _, _ =>
      let r := fresh "r" in
      intros r; destruct r as [?|? ? [?|?]]
  end.

Ltac branch :=
  match goal with
  | |- context [if ?b then _ else _] => destruct b eqn:?
  end.

Ltac extraction :=
  match goal with
  | |- context [extractMessageText ?f ?t ?i] =>
      destruct (extractMessageText f t i) eqn:?
  end.

Ltac exec := repeat (cbn; first [extraction | branch | ask_world]).

Lemma run_steps_Sync {A X : Type} (f : Sys -> X * Sys) (k : X -> prog A) n s w :
  run_steps world n (Sync f k) s w
  = let '(x, s') := f s in run_steps world n (k x) s' w.
Proof. destruct n; cbn; by destruct (f s). Qed.

(** What holds at every suspension point holds wherever a run stops. *)
Lemma awaits_hold_run_steps {A : Type} (P : Sys -> Prop) (p : prog A) :
  forall n s w,
    awaits_hold P p s ->
    match run_steps world n p s w with
    | (Blocked _ _, s1, _) => P s1
    | _ => True
    end.
Proof.
  induction p as [a|e|X f k IH|c k IH]; intros n s w Hp.
  - by destruct n.
  - by destruct n.
  - rewrite run_steps_Sync. cbn in Hp. destruct (f s) as [x s']. by apply IH.
  - destruct Hp as [Hs Hk]. destruct n as [|n]; cbn; [done|].
    destruct (world c w) as [r w']. by apply IH.
Qed.

(** [try/finally] with [processingMessages.delete(k)]: whatever the
    body does and however it ends, [k] is not in the set afterwards. *)
Lemma try_finally_deletes {A : Type} (p : prog A) (k : string) s w :
  k ∉ processingMessages
        (memory (run world (try_finally p (processingMessages_delete k)) s w)).
Proof.
  revert s w. induction p as [a|e|X f c IH|c c0 IH]; intros s w; cbn.
  - set_solver.
  - set_solver.
  - destruct (f s) as [x s']. apply IH.
  - destruct (world c w) as [r w']. cbn. apply IH.
Qed.

(** A delivery whose key is in the set is dropped: nothing is sent and
    nothing changes. *)
Lemma handleEvent_duplicate payload s w :
  messageId (event payload) ∈ processingMessages s ->
  run world (handleEvent formatError new_RegExp config payload) s w
  = {| completed := Returned tt; memory := s; outside := w; trace := [] |}.
Proof.
  intros H. unfold handleEvent.
  destruct (negb _); [done|].
  destruct (String.eqb _ _); [done|].
  cbn. by rewrite bool_decide_eq_true_2.
Qed.

(** The routine returns, whatever the outside world answers, unless the
    mention token does not compile: then it throws what the constructor
    threw. *)
Lemma handleEvent_completion payload s w :
  completed (run world (handleEvent formatError new_RegExp config payload) s w)
  = Returned tt
  \/ exists e,
       extractMessageText new_RegExp (text (event payload)) (botUserId config)
       = Threw e
       /\ completed (run world (handleEvent formatError new_RegExp config payload) s w)
          = Threw e.
Proof.
  unfold handleEvent, process, submit. exec; eauto.
Qed.

(** It returns when the mention token compiles. *)
Lemma handleEvent_returns payload s w messageText :
  extractMessageText new_RegExp (text (event payload)) (botUserId config)
  = Returned messageText ->
  completed (run world (handleEvent formatError new_RegExp config payload) s w)
  = Returned tt.
Proof.
  intros He. destruct (handleEvent_completion payload s w) as [H|(e & H & _)]; [done|].
  congruence.
Qed.

(** It gives back the set as it found it. *)
Lemma handleEvent_keeps_set payload s w :
  processingMessages (memory (run world (handleEvent formatError new_RegExp config payload) s w))
  = processingMessages s.
Proof.
  unfold handleEvent, process, submit. exec; try done.
  all: repeat match goal with
              | H : bool_decide _ = false |- _ => apply bool_decide_eq_false_1 in H
              end.
  all: set_solver.
Qed.

(** While a delivery waits for an answer, its key is in the set. *)
Lemma handleEvent_holds_key payload s :
  awaits_hold (fun s1 => messageId (event payload) ∈ processingMessages s1)
    (handleEvent formatError new_RegExp config payload) s.
Proof.
  unfold handleEvent, process, submit.
  repeat (cbn; first [extraction | branch | split; [set_solver|] | any_answer]); done.
Qed.

(** The guards of [handleEvent] for a delivery that is processed. *)
Lemma handleEvent_processable payload s :
  processable config (event payload) ->
  messageId (event payload) ∉ processingMessages s ->
  forall w,
    run world (handleEvent formatError new_RegExp config payload) s w
    = run world
        (try_finally (process formatError new_RegExp config (event payload))
           (processingMessages_delete (messageId (event payload)))) s w.
Proof.
  intros (Ht & Hu & _) Hk w. unfold handleEvent.
  rewrite Ht. cbn [negb String.eqb Ascii.eqb Bool.eqb].
  apply String.eqb_neq in Hu. rewrite Hu.
  cbn. by rewrite bool_decide_eq_false_2.
Qed.

Lemma processable_routed ev :
  processable config ev ->
  negb (isDirectMessage ev) && negb (isBotMentioned (text ev) (botUserId config))
  = false.
Proof.
  intros (_ & _ & [H|H]); rewrite H; cbn; [done|].
  by destruct (isDirectMessage ev).
Qed.

(** A delivery that is processed throws when the token does not compile,
    before anything is sent. *)
Lemma handleEvent_throws payload s w e :
  processable config (event payload) ->
  messageId (event payload) ∉ processingMessages s ->
  extractMessageText new_RegExp (text (event payload)) (botUserId config) = Threw e ->
  completed (run world (handleEvent formatError new_RegExp config payload) s w) = Threw e
  /\ trace (run world (handleEvent formatError new_RegExp config payload) s w) = [].
Proof.
  intros Hp Hk He.
  rewrite handleEvent_processable by done.
  unfold process. cbn.
  rewrite (processable_routed _ Hp), He. by cbn.
Qed.

(** When the [try] block throws, it ends with the key in the set: it is
    the [finally] block that removes it. *)
Lemma process_throws_holding_key ev s w e :
  processable config ev ->
  extractMessageText new_RegExp (text ev) (botUserId config) = Threw e ->
  completed (run world (process formatError new_RegExp config ev) s w) = Threw e
  /\ messageId ev
     ∈ processingMessages (memory (run world (process formatError new_RegExp config ev) s w)).
Proof.
  intros Hp He. unfold process. cbn.
  rewrite (processable_routed _ Hp), He. cbn. split; [done|set_solver].
Qed.

(** C5: on every way out of the event-processing routine, the key of
    the delivery is not in the in-flight set once the routine has
    finished, whether the routine returns or throws, whatever the outside
    world answers and whatever the regular expression engine does.  The
    routine does throw: for a delivery that is processed it throws what
    compiling the mention token throws, inside the [try] block and after
    the key was added.  The [try] block then ends with the key in the
    set, and the routine as a whole with the key removed. *)
Theorem dedup_key_released payload s w :
  messageId (event payload) ∉ processingMessages s ->
  (messageId (event payload)
     ∉ processingMessages
         (memory (run world (handleEvent formatError new_RegExp config payload) s w)))
  /\ (forall e,
        processable config (event payload) ->
        extractMessageText new_RegExp (text (event payload)) (botUserId config)
        = Threw e ->
        completed (run world (handleEvent formatError new_RegExp config payload) s w)
        = Threw e
        /\ messageId (event payload)
           ∈ processingMessages
               (memory (run world
                          (process formatError new_RegExp config (event payload)) s w))).
Proof.
  intros Hk. split; [by rewrite handleEvent_keeps_set|].
  intros e Hp He. split; [by apply handleEvent_throws|].
  by apply (process_throws_holding_key _ s w e).
Qed.

(** C6: of two deliveries with the same channel and event timestamp,
    the one that arrives while the other is suspended inside the
    routine finds the key in the set and returns without sending
    anything: no post, no update, no ephemeral message. *)
Theorem duplicate_delivery_dropped (first second : SlackWebhookPayload)
    (n : nat) s w c k s1 w1 :
  channel (event second) = channel (event first) ->
  event_ts (event second) = event_ts (event first) ->
  run_steps world n (handleEvent formatError new_RegExp config first) s w = (Blocked c k, s1, w1) ->
  messageId (event first) ∈ processingMessages s1
  /\ forall w2,
       run world (handleEvent formatError new_RegExp config second) s1 w2
       = {| completed := Returned tt; memory := s1; outside := w2; trace := [] |}.
Proof.
  intros Hc Ht Hrun.
  assert (Hheld : messageId (event first) ∈ processingMessages s1).
  { pose proof (awaits_hold_run_steps _ _ n s w (handleEvent_holds_key first s)) as H.
    by rewrite Hrun in H. }
  split; [done|].
  intros w2. apply handleEvent_duplicate.
  unfold messageId in *. by rewrite Hc, Ht.
Qed.

(** C4, as the code has it: a processed delivery for which
    [extractMessageText] returns the empty string (nothing is left once
    the matches of the mention pattern are removed and the rest is
    trimmed) gets one ordinary message asking for a text, sent with
    [chat.postMessage]; nothing else is sent and no interval is
    created. *)
Theorem empty_text_asks_for_message payload s w :
  processable config (event payload) ->
  messageId (event payload) ∉ processingMessages s ->
  extractMessageText new_RegExp (text (event payload)) (botUserId config)
  = Returned "" ->
  trace (run world (handleEvent formatError new_RegExp config payload) s w)
  = [SlackPostMessage (botToken config)
       {| msg_channel := channel (event payload);
          msg_text := please_provide_text;
          thread_ts := None |}]
  /\ intervals (memory (run world (handleEvent formatError new_RegExp config payload) s w))
     = intervals s
  /\ completed (run world (handleEvent formatError new_RegExp config payload) s w) = Returned tt.
Proof.
  intros Hp Hk He.
  rewrite handleEvent_processable by done.
  unfold process. cbn.
  rewrite (processable_routed _ Hp), He.
  exec; done.
Qed.

(** C8: when the request to the Continue API, which carries the text
    [extractMessageText] returned, is rejected or answered with a status
    that is not a success, the acknowledgement already posted is edited
    to show the formatted error; the routine sends nothing else, asks
    for no state and creates no interval. *)
Theorem failed_submission_reports_error payload s w messageText ack w1 ackTs sub w2 err :
  processable config (event payload) ->
  messageId (event payload) ∉ processingMessages s ->
  extractMessageText new_RegExp (text (event payload)) (botUserId config)
  = Returned messageText ->
  messageText <> "" ->
  world (SlackPostMessage (botToken config)
           {| msg_channel := channel (event payload);
              msg_text := processing_text; thread_ts := None |}) w = (ack, w1) ->
  acknowledged ack = Some ackTs ->
  world (ContinueMessage (continueApiUrl config ++ "/message") messageText) w1
  = (sub, w2) ->
  submission_error sub = Some err ->
  trace (run world (handleEvent formatError new_RegExp config payload) s w)
  = [SlackPostMessage (botToken config)
       {| msg_channel := channel (event payload);
          msg_text := processing_text; thread_ts := None |};
     ContinueMessage (continueApiUrl config ++ "/message") messageText;
     SlackUpdate (botToken config) (channel (event payload)) ackTs
       ("❌ Error processing your request: " ++ formatError err)]
  /\ intervals (memory (run world (handleEvent formatError new_RegExp config payload) s w))
     = intervals s.
Proof.
  intros Hp Hk He Hm Hack Hts Hsub Herr.
  rewrite handleEvent_processable by done.
  unfold process, submit. cbn.
  rewrite (processable_routed _ Hp), He.
  destruct messageText as [|a0 m]; [done|].
  cbn. rewrite Hack.
  destruct ack as [e|o st [data|e]]; cbn in Hts; try done.
  destruct (ok data) eqn:Hok; cbn in Hts; [|done].
  destruct (truthy_opt (ts data)) eqn:Htr; [|done].
  repeat (cbn; rewrite ?Hok, ?Htr, ?Hts, ?Hsub).
  destruct sub as [e|[] st' j]; cbn in Herr; try done.
  all: injection Herr as <-.
  all: exec; done.
Qed.

(** The path on which a session starts: the acknowledgement is
    accepted and so is the submission. *)
Lemma handleEvent_starts_session payload s w messageText ack w1 ackTs sub w2 :
  processable config (event payload) ->
  messageId (event payload) ∉ processingMessages s ->
  extractMessageText new_RegExp (text (event payload)) (botUserId config)
  = Returned messageText ->
  messageText <> "" ->
  world (SlackPostMessage (botToken config)
           {| msg_channel := channel (event payload);
              msg_text := processing_text; thread_ts := None |}) w = (ack, w1) ->
  acknowledged ack = Some ackTs ->
  world (ContinueMessage (continueApiUrl config ++ "/message") messageText) w1
  = (sub, w2) ->
  submission_error sub = None ->
  trace (run world (handleEvent formatError new_RegExp config payload) s w)
  = [SlackPostMessage (botToken config)
       {| msg_channel := channel (event payload);
          msg_text := processing_text; thread_ts := None |};
     ContinueMessage (continueApiUrl config ++ "/message") messageText;
     SlackUpdate (botToken config) (channel (event payload)) ackTs queued_text]
  /\ intervals (memory (run world (handleEvent formatError new_RegExp config payload) s w))
     = (intervals s
        ++ [{| cb_channel := channel (event payload);
               cb_user := user (event payload);
               cb_messageTs := ackTs; polls := O; lastMessageCount := O;
               cleared := false |}])%list.
Proof.
  intros Hp Hk He Hm Hack Hts Hsub Herr.
  rewrite handleEvent_processable by done.
  unfold process, submit. cbn.
  rewrite (processable_routed _ Hp), He.
  destruct messageText as [|a0 m]; [done|].
  cbn. rewrite Hack.
  destruct ack as [e|o st [data|e]]; cbn in Hts; try done.
  destruct (ok data) eqn:Hok; cbn in Hts; [|done].
  destruct (truthy_opt (ts data)) eqn:Htr; [|done].
  repeat (cbn; rewrite ?Hok, ?Htr, ?Hts, ?Hsub).
  destruct sub as [e|[] st' j]; cbn in Herr; try done.
  exec; done.
Qed.

End HandleEventFacts.

(** ** The interval callback *)

#[local] Arguments update_interval : simpl never.
#[local] Arguments Nat.ltb : simpl never.
#[local] Arguments Nat.leb : simpl never.
#[local] Arguments maxPolls : simpl never.

Lemma lookup_update_interval id f s :
  intervals (update_interval id f s) !! id = f <$> (intervals s !! id).
Proof.
  unfold update_interval.
  destruct (intervals s !! id) as [iv|] eqn:H; cbn; [|by rewrite H].
  apply list_lookup_insert_eq. by eapply lookup_lt_Some.
Qed.

Lemma lookup_update_interval_ne id j f s :
  id <> j -> intervals (update_interval id f s) !! j = intervals s !! j.
Proof.
  intros Hne. unfold update_interval.
  destruct (intervals s !! id) as [iv|] eqn:H; cbn; [|done].
  by apply list_lookup_insert_ne.
Qed.

Lemma length_update_interval id f s :
  length (intervals (update_interval id f s)) = length (intervals s).
Proof.
  unfold update_interval.
  destruct (intervals s !! id); cbn; [apply length_insert | done].
Qed.

Lemma processingMessages_update_interval id f s :
  processingMessages (update_interval id f s) = processingMessages s.
Proof. unfold update_interval. by destruct (intervals s !! id). Qed.

Lemma logs_update_interval id f s :
  logs (update_interval id f s) = logs s.
Proof. unfold update_interval. by destruct (intervals s !! id). Qed.

(** The texts of the updates are told apart by how they start. *)
Lemma content_update_complete b ch t c0 :
  is_content_update (SlackUpdate b ch t (complete_text c0)) = true.
Proof. destruct c0; by vm_compute. Qed.

Lemma content_update_timeout b ch t :
  is_content_update (SlackUpdate b ch t timeout_text) = false.
Proof. by vm_compute. Qed.

Lemma content_update_processing_complete b ch t :
  is_content_update (SlackUpdate b ch t processing_complete_text) = false.
Proof. by vm_compute. Qed.

Lemma content_update_error b ch t m :
  is_content_update (SlackUpdate b ch t ("❌ Error getting results: " ++ m)) = false.
Proof. by vm_compute. Qed.

Lemma timeout_update_complete b ch t c0 :
  is_timeout_update (SlackUpdate b ch t (complete_text c0)) = false.
Proof. by vm_compute. Qed.

Lemma timeout_update_processing_complete b ch t :
  is_timeout_update (SlackUpdate b ch t processing_complete_text) = false.
Proof. by vm_compute. Qed.

Lemma timeout_update_error b ch t m :
  is_timeout_update (SlackUpdate b ch t ("❌ Error getting results: " ++ m)) = false.
Proof. by vm_compute. Qed.

Lemma count_nil p : count p [] = O.
Proof. done. Qed.

Lemma count_cons p c t :
  count p (c :: t) = ((if p c then 1 else 0) + count p t)%nat.
Proof. unfold count. cbn. by destruct (p c). Qed.

Lemma timeout_update_timeout b ch t :
  is_timeout_update (SlackUpdate b ch t timeout_text) = true.
Proof. by vm_compute. Qed.

Lemma content_update_get u : is_content_update (ContinueGet u) = false.
Proof. done. Qed.

Lemma timeout_update_get u : is_timeout_update (ContinueGet u) = false.
Proof. done. Qed.

Lemma count_app p t1 t2 : count p (t1 ++ t2)%list = (count p t1 + count p t2)%nat.
Proof. unfold count. by rewrite List.filter_app, length_app. Qed.

Lemma truthy_nonempty c : JsString.truthy c = true -> c <> "".
Proof. by destruct c. Qed.

#[local] Arguments count : simpl never.
#[local] Arguments is_content_update : simpl never.
#[local] Arguments is_timeout_update : simpl never.

Section TickFacts.

Variable formatError : JsError -> string.
Variable config : SlackIntegrationConfig.
Variable W : Type.
Variable world : forall c : call, W -> resp c * W.

Abbreviation fire := (fire formatError config).
Abbreviation seconds := (run_ticks formatError config world).
Abbreviation state_url := (continueApiUrl config ++ "/state").

Ltac ask_world :=
  match goal with
  | H : world ?c ?w = _ |- context [world ?c ?w] => rewrite H
  | |- context [world ?c ?w] =>
      let r := fresh "r" in
      let w' := fresh "w" in
      destruct (world c w) as [r w'] eqn:?; cbn in r;
      destruct r as [?|? ? [?|?]]
  end.

Ltac branch :=
  match goal with
  | |- context [if ?b then _ else _] => destruct b eqn:?
  end.

Ltac look :=
  match goal with
  | |- context [intervals (update_interval ?i _ _) !! ?i] =>
      rewrite lookup_update_interval
  | H : intervals ?s !! ?i = _ |- context [intervals ?s !! ?i] => rewrite H
  | |- context [processingMessages (update_interval _ _ _)] =>
      rewrite processingMessages_update_interval
  | |- context [match history ?st with _ => _ end] => destruct (history st) eqn:?
  | |- context [match assistant_content ?h with _ => _ end] =>
      destruct (assistant_content h) eqn:?
  end.

Ltac exec := repeat (cbn; first [look | branch | ask_world]).

Ltac count_calls :=
  rewrite ?count_cons, ?count_nil;
  rewrite ?content_update_complete, ?content_update_timeout,
    ?content_update_processing_complete, ?content_update_error,
    ?timeout_update_complete, ?timeout_update_processing_complete,
    ?timeout_update_error, ?timeout_update_timeout,
    ?content_update_get, ?timeout_update_get;
  cbn.

(** A cleared interval, or none at all: nothing happens. *)
Lemma fire_idle id s w :
  (forall iv, intervals s !! id = Some iv -> cleared iv = true) ->
  run world (fire id) s w
  = {| completed := Returned tt; memory := s; outside := w; trace := [] |}.
Proof.
  intros H. unfold fire. cbn.
  destruct (intervals s !! id) as [iv|] eqn:E; [|done].
  by rewrite (H iv).
Qed.

(** The callback never throws and never touches the in-flight set. *)
Lemma fire_returns id s w :
  completed (run world (fire id) s w) = Returned tt.
Proof.
  unfold fire, tick, poll_state. cbn.
  destruct (intervals s !! id) as [iv|] eqn:E; [|done].
  exec; done.
Qed.

Lemma fire_keeps_set id s w :
  processingMessages (memory (run world (fire id) s w)) = processingMessages s.
Proof.
  unfold fire, tick, poll_state. cbn.
  destruct (intervals s !! id) as [iv|] eqn:E; [|done].
  exec; done.
Qed.

Lemma fire_keeps_length id s w :
  length (intervals (memory (run world (fire id) s w))) = length (intervals s).
Proof.
  unfold fire, tick, poll_state. cbn.
  destruct (intervals s !! id) as [iv|] eqn:E; [|done].
  exec; rewrite ?length_update_interval; cbn; rewrite ?length_update_interval;
    cbn; rewrite ?length_update_interval; done.
Qed.

(** Past [maxPolls] calls the callback clears the interval and edits
    the message to show the timeout notice; it asks for no state. *)
Lemma fire_timeout id s w iv :
  intervals s !! id = Some iv ->
  cleared iv = false ->
  (maxPolls <= polls iv)%nat ->
  trace (run world (fire id) s w)
  = [SlackUpdate (botToken config) (cb_channel iv) (cb_messageTs iv) timeout_text]
  /\ exists iv',
       intervals (memory (run world (fire id) s w)) !! id = Some iv'
       /\ polls iv' = S (polls iv) /\ cleared iv' = true.
Proof.
  intros E Hc Hp. unfold fire, tick. cbn. rewrite E, Hc.
  cbn. rewrite lookup_update_interval, E. cbn.
  destruct (Nat.ltb_spec maxPolls (S (polls iv))) as [_|?]; [|lia].
  exec; (split; [done|]); eexists; (split; [reflexivity|done]).
Qed.

(** A call within the budget that finds the Continue API still
    processing: the interval stays, one more poll is counted, and the
    timeout notice is not sent. *)
Lemma fire_busy id s w iv r w1 st :
  intervals s !! id = Some iv ->
  cleared iv = false ->
  (polls iv < maxPolls)%nat ->
  world (ContinueGet state_url) w = (r, w1) ->
  reported r = Some st ->
  isProcessing st = true ->
  count is_timeout_update (trace (run world (fire id) s w)) = O
  /\ count is_state_query (trace (run world (fire id) s w)) = 1%nat
  /\ exists iv',
       intervals (memory (run world (fire id) s w)) !! id = Some iv'
       /\ polls iv' = S (polls iv) /\ cleared iv' = false
       /\ cb_channel iv' = cb_channel iv /\ cb_messageTs iv' = cb_messageTs iv.
Proof.
  intros E Hc Hp Hw Hr Hbusy. unfold fire, tick, poll_state. cbn. rewrite E, Hc.
  cbn. rewrite lookup_update_interval, E. cbn.
  destruct (Nat.ltb_spec maxPolls (S (polls iv))) as [?|_]; [lia|].
  cbn. rewrite Hw.
  destruct r as [e|[] status [st'|e]]; cbn in Hr; try done.
  injection Hr as ->. cbn. rewrite Hbusy.
  exec; count_calls.
  all: split; [done|]; split; [done|].
  all: eexists; split; [reflexivity|done].
Qed.

(** Once the interval is cleared, time passes without any call. *)
Lemma run_ticks_idle n id s w :
  (forall iv, intervals s !! id = Some iv -> cleared iv = true) ->
  seconds n id s w
  = {| completed := Returned tt; memory := s; outside := w; trace := [] |}.
Proof.
  intros H. induction n as [|n IH]; [done|].
  cbn [run_ticks]. rewrite fire_idle by done.
  cbn [memory outside trace]. by rewrite IH.
Qed.

Lemma run_ticks_keeps_set n id : forall s w,
  processingMessages (memory (seconds n id s w)) = processingMessages s.
Proof.
  induction n as [|n IH]; intros s w; [done|].
  cbn [run_ticks memory]. by rewrite IH, fire_keeps_set.
Qed.

Lemma run_ticks_keeps_length n id : forall s w,
  length (intervals (memory (seconds n id s w))) = length (intervals s).
Proof.
  induction n as [|n IH]; intros s w; [done|].
  cbn [run_ticks memory]. by rewrite IH, fire_keeps_length.
Qed.

(** While the Continue API keeps processing, every second within the
    budget is one state query and no timeout notice. *)
Lemma busy_ticks n id : forall s w iv,
  intervals s !! id = Some iv ->
  cleared iv = false ->
  (polls iv + n <= maxPolls)%nat ->
  (forall w0, exists st,
      reported (fst (world (ContinueGet state_url) w0)) = Some st
      /\ isProcessing st = true) ->
  count is_timeout_update (trace (seconds n id s w)) = O
  /\ count is_state_query (trace (seconds n id s w)) = n
  /\ exists iv',
       intervals (memory (seconds n id s w)) !! id = Some iv'
       /\ polls iv' = (polls iv + n)%nat /\ cleared iv' = false
       /\ cb_channel iv' = cb_channel iv /\ cb_messageTs iv' = cb_messageTs iv.
Proof.
  induction n as [|n IH]; intros s w iv E Hc Hp Hbusy.
  - cbn. repeat split; try done. exists iv. by rewrite Nat.add_0_r.
  - destruct (Hbusy w) as (st & Hr & Hst).
    destruct (world (ContinueGet state_url) w) as [r w1] eqn:Hw. cbn in Hr.
    destruct (fire_busy id s w iv r w1 st) as (Ht & Hq & iv1 & E1 & Hp1 & Hc1 & Hch & Hts);
      try done; [lia|].
    destruct (IH (memory (run world (fire id) s w))
                 (outside (run world (fire id) s w)) iv1)
      as (Ht' & Hq' & iv' & E' & Hp' & Hc' & Hch' & Hts'); try done; [lia|].
    cbn [run_ticks memory trace].
    rewrite !count_app, Ht, Ht', Hq, Hq'.
    repeat split; try done.
    exists iv'. repeat split; try done; [lia|congruence|congruence].
Qed.

(** C3, as the code has it: with the Continue API processing
    throughout, the first 300 calls of the callback are 300 state
    queries, after which the interval is still running and no timeout
    notice has been sent; the 301st call asks for no state, edits the
    message once to show the timeout notice and clears the interval;
    after that the callback is not called again. *)
Theorem timeout_on_call_301 id s w iv :
  intervals s !! id = Some iv ->
  polls iv = O ->
  cleared iv = false ->
  (forall w0, exists st,
      reported (fst (world (ContinueGet state_url) w0)) = Some st
      /\ isProcessing st = true) ->
  let r300 := seconds 300 id s w in
  let r301 := run world (fire id) (memory r300) (outside r300) in
  (count is_state_query (trace r300) = 300%nat
   /\ count is_timeout_update (trace r300) = O
   /\ exists iv300,
        intervals (memory r300) !! id = Some iv300
        /\ polls iv300 = 300%nat /\ cleared iv300 = false)
  /\ (trace r301
      = [SlackUpdate (botToken config) (cb_channel iv) (cb_messageTs iv) timeout_text]
      /\ exists iv301,
           intervals (memory r301) !! id = Some iv301
           /\ polls iv301 = 301%nat /\ cleared iv301 = true)
  /\ (forall n,
        seconds n id (memory r301) (outside r301)
        = {| completed := Returned tt; memory := memory r301;
             outside := outside r301; trace := [] |}).
Proof.
  intros E Hp Hc Hbusy.
  assert (Hle : (polls iv + 300 <= maxPolls)%nat).
  { rewrite Hp. unfold maxPolls. lia. }
  pose proof (busy_ticks 300 id s w iv E Hc Hle Hbusy)
    as (Ht & Hq & iv300 & E300 & Hp300 & Hc300 & Hch & Hts).
  rewrite Hp, Nat.add_0_l in Hp300.
  set (r300 := seconds 300 id s w) in *. clearbody r300.
  assert (Hge : (maxPolls <= polls iv300)%nat).
  { rewrite Hp300. unfold maxPolls. lia. }
  pose proof (fire_timeout id (memory r300) (outside r300) iv300 E300 Hc300 Hge)
    as (Htr & iv301 & E301 & Hp301 & Hc301).
  cbv zeta.
  set (r301 := run world (fire id) (memory r300) (outside r300)) in *.
  clearbody r301.
  split; [|split].
  - split; [exact Hq|]. split; [exact Ht|].
    exists iv300. split; [exact E300|]. split; [exact Hp300|exact Hc300].
  - split; [by rewrite <- Hch, <- Hts|].
    exists iv301. split; [exact E301|]. split; [|exact Hc301].
    rewrite Hp301. f_equal. exact Hp300.
  - intros n. apply run_ticks_idle.
    intros iv1 E1. rewrite E301 in E1. injection E1 as <-. exact Hc301.
Qed.


Ltac nat_tests :=
  repeat match goal with
    | H : Nat.ltb _ _ = true |- _ => apply Nat.ltb_lt in H
    | H : Nat.ltb _ _ = false |- _ => apply Nat.ltb_ge in H
    | H : Nat.eqb _ _ = true |- _ => apply Nat.eqb_eq in H
    | H : Nat.eqb _ _ = false |- _ => apply Nat.eqb_neq in H
    end.

(** After a call that was shown a history, [lastMessageCount] is at
    least the length of that history, unless the interval is cleared. *)
Lemma fire_records_length id s w r w1 h :
  world (ContinueGet state_url) w = (r, w1) ->
  observed_history r = Some h ->
  forall iv',
    intervals (memory (run world (fire id) s w)) !! id = Some iv' ->
    cleared iv' = true \/ (length h <= lastMessageCount iv')%nat.
Proof.
  intros Hw Hr. unfold fire, tick, poll_state. cbn.
  destruct (intervals s !! id) as [iv|] eqn:E; [|cbn; congruence].
  destruct (cleared iv) eqn:Hc; [cbn; intros iv' ?; left; congruence|].
  cbn. rewrite lookup_update_interval, E. cbn.
  destruct (Nat.ltb maxPolls (S (polls iv))) eqn:Hp.
  { exec; intros iv'; repeat (rewrite ?lookup_update_interval, ?E; cbn);
      intros [= <-]; by left. }
  cbn. rewrite Hw.
  destruct r as [e|[] status [st|e]]; cbn in Hr; try done.
  cbn. rewrite Hr.
  exec; intros iv'; repeat (rewrite ?lookup_update_interval, ?E; cbn).
  all: intros [= <-]; cbn; nat_tests; first [by left | right; lia].
Qed.

(** A call that is shown a history no longer than [lastMessageCount]
    relays no content. *)
Lemma fire_no_relay_without_growth id s w iv r w1 h :
  intervals s !! id = Some iv ->
  cleared iv = true \/ (length h <= lastMessageCount iv)%nat ->
  world (ContinueGet state_url) w = (r, w1) ->
  observed_history r = Some h ->
  count is_content_update (trace (run world (fire id) s w)) = O.
Proof.
  intros E Hlen Hw Hr.
  destruct (cleared iv) eqn:Hc.
  { rewrite fire_idle; [done|]. intros iv0 E0. congruence. }
  destruct Hlen as [?|Hlen]; [done|].
  unfold fire, tick, poll_state. cbn. rewrite E, Hc.
  cbn. rewrite lookup_update_interval, E. cbn.
  destruct (Nat.ltb maxPolls (S (polls iv))) eqn:Hp.
  { exec; by count_calls. }
  cbn. rewrite Hw.
  destruct r as [e|[] status [st|e]]; cbn in Hr; try done.
  cbn. rewrite Hr. cbn. rewrite lookup_update_interval, E. cbn.
  apply Nat.ltb_ge in Hlen. rewrite Hlen.
  exec; by count_calls.
Qed.

(** One call relays content at most once, and only when the history
    has grown past [lastMessageCount] and its newest entry is an
    assistant's with content that is not empty; the length is then
    recorded. *)
Lemma content_relay_only_on_growth id s w iv r w1 :
  intervals s !! id = Some iv ->
  world (ContinueGet state_url) w = (r, w1) ->
  (count is_content_update (trace (run world (fire id) s w)) <= 1)%nat
  /\ (count is_content_update (trace (run world (fire id) s w)) = 1%nat ->
      exists h c0,
        observed_history r = Some h
        /\ (lastMessageCount iv < length h)%nat
        /\ assistant_content h = Some c0
        /\ c0 <> ""
        /\ In (SlackUpdate (botToken config) (cb_channel iv) (cb_messageTs iv)
                 (complete_text c0))
              (trace (run world (fire id) s w))
        /\ exists iv',
             intervals (memory (run world (fire id) s w)) !! id = Some iv'
             /\ lastMessageCount iv' = length h).
Proof.
  intros E Hw. unfold fire, tick, poll_state. cbn. rewrite E.
  destruct (cleared iv) eqn:Hc; [cbn; count_calls; split; [lia|done]|].
  cbn. rewrite lookup_update_interval, E. cbn.
  destruct (Nat.ltb maxPolls (S (polls iv))) eqn:Hp.
  { exec; count_calls; (split; [lia|done]). }
  cbn. rewrite Hw.
  destruct r as [e|[] status [st|e]].
  all: exec; count_calls; (split; [lia|]); try done.
  all: intros _; nat_tests.
  all: eexists _, _; split; [reflexivity|]; split; [done|]; split; [done|].
  all: split; [apply truthy_nonempty; by destruct (JsString.truthy _)|].
  all: split; [cbn; tauto|].
  all: eexists; repeat (rewrite ?lookup_update_interval, ?E; cbn).
  all: split; reflexivity.
Qed.

(** C7: when two consecutive calls of the callback are shown histories
    of the same length, the second relays no content; and a call relays
    content at most once, only for a history that has grown and whose
    newest entry is an assistant's with content that is not empty. *)
Theorem same_history_length_no_second_relay id s w r1 w1 r2 w2 h1 h2 :
  world (ContinueGet state_url) w = (r1, w1) ->
  observed_history r1 = Some h1 ->
  world (ContinueGet state_url) (outside (run world (fire id) s w)) = (r2, w2) ->
  observed_history r2 = Some h2 ->
  length h2 = length h1 ->
  count is_content_update
    (trace (run world (fire id)
              (memory (run world (fire id) s w))
              (outside (run world (fire id) s w)))) = O
  /\ forall s0 w0 iv r0 w0',
       intervals s0 !! id = Some iv ->
       world (ContinueGet state_url) w0 = (r0, w0') ->
       (count is_content_update (trace (run world (fire id) s0 w0)) <= 1)%nat
       /\ (count is_content_update (trace (run world (fire id) s0 w0)) = 1%nat ->
           exists h c0,
             observed_history r0 = Some h
             /\ (lastMessageCount iv < length h)%nat
             /\ assistant_content h = Some c0
             /\ c0 <> "").
Proof.
  intros Hw1 Hr1 Hw2 Hr2 Hlen. split.
  - destruct (intervals (memory (run world (fire id) s w)) !! id) as [iv1|] eqn:E1.
    + eapply fire_no_relay_without_growth; [exact E1| |exact Hw2|exact Hr2].
      rewrite Hlen. eapply fire_records_length; [exact Hw1|exact Hr1|exact E1].
    + rewrite fire_idle; [done|]. intros iv0 E0. congruence.
  - intros s0 w0 iv r0 w0' E0 Hw0.
    destruct (content_relay_only_on_growth id s0 w0 iv r0 w0' E0 Hw0) as [Hle Hone].
    split; [exact Hle|]. intros H1.
    destruct (Hone H1) as (h & c0 & ? & ? & ? & ? & _). by exists h, c0.
Qed.

(** The callback keeps the channel and the message it was created
    for. *)
Lemma fire_keeps_callback id s w iv :
  intervals s !! id = Some iv ->
  exists iv',
    intervals (memory (run world (fire id) s w)) !! id = Some iv'
    /\ cb_channel iv' = cb_channel iv /\ cb_messageTs iv' = cb_messageTs iv.
Proof.
  intros E. unfold fire, tick, poll_state. cbn. rewrite E.
  exec; repeat (rewrite ?lookup_update_interval, ?E; cbn); by eexists.
Qed.

Lemma run_ticks_keeps_callback n id : forall s w iv,
  intervals s !! id = Some iv ->
  exists iv',
    intervals (memory (seconds n id s w)) !! id = Some iv'
    /\ cb_channel iv' = cb_channel iv /\ cb_messageTs iv' = cb_messageTs iv.
Proof.
  induction n as [|n IH]; intros s w iv E; [by exists iv|].
  destruct (fire_keeps_callback id s w iv E) as (iv1 & E1 & Hch & Hts).
  destruct (IH _ (outside (run world (fire id) s w)) iv1 E1) as (iv' & E' & Hch' & Hts').
  cbn [run_ticks memory]. exists iv'. split; [done|]. split; congruence.
Qed.

(** Completion without a notice, in general: a call within the budget
    that is shown a history which has grown but whose newest entry is not an
    assistant's, while the Continue API reports that it has finished,
    clears the interval and sends nothing to Slack. *)
Lemma fire_finished_without_content id s w iv r w1 st h :
  intervals s !! id = Some iv ->
  cleared iv = false ->
  (polls iv < maxPolls)%nat ->
  world (ContinueGet state_url) w = (r, w1) ->
  reported r = Some st ->
  history st = Some h ->
  (lastMessageCount iv < length h)%nat ->
  assistant_content h = None ->
  isProcessing st = false ->
  queueLength st = 0 ->
  trace (run world (fire id) s w) = [ContinueGet state_url]
  /\ exists iv',
       intervals (memory (run world (fire id) s w)) !! id = Some iv'
       /\ cleared iv' = true.
Proof.
  intros E Hc Hp Hw Hr Hh Hlen Ha Hbusy Hq.
  unfold fire, tick, poll_state. cbn. rewrite E, Hc.
  cbn. rewrite lookup_update_interval, E. cbn.
  destruct (Nat.ltb_spec maxPolls (S (polls iv))) as [?|_]; [lia|].
  cbn. rewrite Hw.
  destruct r as [e|[] status [st'|e]]; cbn in Hr; try done.
  injection Hr as ->. cbn. rewrite Hh. cbn.
  rewrite lookup_update_interval, E. cbn.
  apply Nat.ltb_lt in Hlen as Hlt. rewrite Hlt. cbn.
  rewrite Ha, Hbusy, Hq. cbn.
  repeat (rewrite ?lookup_update_interval, ?E; cbn).
  destruct (Nat.eqb_spec (length h) 0) as [H0|_]; [lia|].
  cbn. split; [done|].
  repeat (rewrite ?lookup_update_interval, ?E; cbn). by eexists.
Qed.

End TickFacts.

(** ** A duplicate delivery after the routine has returned *)

Section SessionFacts.

Variable formatError : JsError -> string.
Variable new_RegExp : string -> completion RegExp.
Variable config : SlackIntegrationConfig.
Variable W : Type.
Variable world : forall c : call, W -> resp c * W.

(** C10: the routine removes the key when it returns, while the
    interval it has created keeps running.  For a delivery with a text
    to submit ([extractMessageText] returns a string that is not empty),
    acknowledged and accepted: a second delivery with the
    same channel and event timestamp that arrives [n] seconds later
    therefore passes the gate, is acknowledged and submitted again, and
    creates a second interval; if the first one has not been cleared by
    then, two intervals are running for the same channel. *)
Theorem duplicate_after_return_starts_second_session payload s w n messageText :
  processable config (event payload) ->
  messageId (event payload) ∉ processingMessages s ->
  extractMessageText new_RegExp (text (event payload)) (botUserId config)
  = Returned messageText ->
  messageText <> "" ->
  (forall w0 m, exists t,
      acknowledged (fst (world (SlackPostMessage (botToken config) m) w0)) = Some t) ->
  (forall w0 u m, submission_error (fst (world (ContinueMessage u m) w0)) = None) ->
  let first := run world (handleEvent formatError new_RegExp config payload) s w in
  let id1 := length (intervals s) in
  let later := run_ticks formatError config world n id1 (memory first) (outside first) in
  let second :=
    run world (handleEvent formatError new_RegExp config payload) (memory later) (outside later) in
  (messageId (event payload) ∉ processingMessages (memory first))
  /\ (exists iv1,
        intervals (memory first) !! id1 = Some iv1
        /\ cleared iv1 = false /\ polls iv1 = O
        /\ cb_channel iv1 = channel (event payload))
  /\ (messageId (event payload) ∉ processingMessages (memory later))
  /\ (exists t2,
        trace second
        = [SlackPostMessage (botToken config)
             {| msg_channel := channel (event payload);
                msg_text := processing_text; thread_ts := None |};
           ContinueMessage (continueApiUrl config ++ "/message") messageText;
           SlackUpdate (botToken config) (channel (event payload)) t2 queued_text]
        /\ intervals (memory second) !! S id1
           = Some {| cb_channel := channel (event payload);
                     cb_user := user (event payload);
                     cb_messageTs := t2; polls := O; lastMessageCount := O;
                     cleared := false |})
  /\ (forall iv1',
        intervals (memory later) !! id1 = Some iv1' ->
        cleared iv1' = false ->
        intervals (memory second) !! id1 = Some iv1'
        /\ cb_channel iv1' = channel (event payload)).
Proof.
  intros Hp Hk He Hm Hslack Hapi first id1 later second.
  (* the first delivery *)
  destruct (world (SlackPostMessage (botToken config)
              {| msg_channel := channel (event payload);
                 msg_text := processing_text; thread_ts := None |}) w)
    as [ack w1] eqn:Hack.
  destruct (Hslack w {| msg_channel := channel (event payload);
                        msg_text := processing_text; thread_ts := None |})
    as [t1 Ht1].
  rewrite Hack in Ht1. cbn [fst] in Ht1.
  destruct (world (ContinueMessage (continueApiUrl config ++ "/message")
              messageText) w1)
    as [sub w2] eqn:Hsub.
  pose proof (Hapi w1 (continueApiUrl config ++ "/message") messageText)
    as Hs1.
  rewrite Hsub in Hs1. cbn [fst] in Hs1.
  destruct (handleEvent_starts_session formatError new_RegExp config W world
              payload s w messageText
              ack w1 t1 sub w2 Hp Hk He Hm Hack Ht1 Hsub Hs1) as [_ Hiv1].
  fold first in Hiv1.
  assert (Hk1 : messageId (event payload) ∉ processingMessages (memory first)).
  { unfold first. by rewrite handleEvent_keeps_set. }
  assert (Hk2 : messageId (event payload) ∉ processingMessages (memory later)).
  { unfold later. by rewrite run_ticks_keeps_set. }
  assert (Hlen : length (intervals (memory later)) = S id1).
  { unfold later. rewrite run_ticks_keeps_length, Hiv1, length_app. cbn.
    unfold id1. lia. }
  assert (E1 : intervals (memory first) !! id1
               = Some {| cb_channel := channel (event payload);
                         cb_user := user (event payload);
                         cb_messageTs := t1; polls := O; lastMessageCount := O;
                         cleared := false |}).
  { rewrite Hiv1. by apply list_lookup_middle. }
  (* the second delivery *)
  destruct (world (SlackPostMessage (botToken config)
              {| msg_channel := channel (event payload);
                 msg_text := processing_text; thread_ts := None |}) (outside later))
    as [ack' w1'] eqn:Hack'.
  destruct (Hslack (outside later)
              {| msg_channel := channel (event payload);
                 msg_text := processing_text; thread_ts := None |})
    as [t2 Ht2].
  rewrite Hack' in Ht2. cbn [fst] in Ht2.
  destruct (world (ContinueMessage (continueApiUrl config ++ "/message")
              messageText) w1')
    as [sub' w2'] eqn:Hsub'.
  pose proof (Hapi w1' (continueApiUrl config ++ "/message") messageText)
    as Hs2.
  rewrite Hsub' in Hs2. cbn [fst] in Hs2.
  destruct (handleEvent_starts_session formatError new_RegExp config W world
              payload (memory later) (outside later) messageText
              ack' w1' t2 sub' w2' Hp Hk2 He Hm Hack' Ht2 Hsub' Hs2) as [Htr2 Hiv2].
  fold second in Htr2, Hiv2.
  split; [exact Hk1|]. split.
  { eexists. split; [exact E1|]. done. }
  split; [exact Hk2|]. split.
  { exists t2. split; [exact Htr2|].
    rewrite Hiv2. by apply list_lookup_middle. }
  intros iv1' E' Hc'. split.
  - rewrite Hiv2. rewrite lookup_app_l by lia. exact E'.
  - destruct (run_ticks_keeps_callback formatError config W world n id1
                (memory first) (outside first) _ E1) as (iv' & Eiv' & Hch & _).
    fold later in Eiv'. rewrite E' in Eiv'. injection Eiv' as <-. exact Hch.
Qed.

End SessionFacts.

(** * The theorems at concrete inputs *)

(** C1, evaluated where the code departs from it: a session that has
    relayed nothing is told by the Continue API that processing has
    finished with an empty queue, the history ending with the user's own
    message.  The callback clears the interval and sends nothing to Slack:
    neither content nor the generic completion notice. *)
Theorem finished_without_content_is_silent :
  lastMessageCount Sample.session = O
  /\ trace (run (scripted Sample.finished_without_answer)
              (fire Sample.formatError Sample.config 0) Sample.polling tt)
     = [ContinueGet "http://localhost:8000/state"]
  /\ count is_relay
       (trace (run (scripted Sample.finished_without_answer)
                 (fire Sample.formatError Sample.config 0) Sample.polling tt)) = O
  /\ intervals (memory (run (scripted Sample.finished_without_answer)
                          (fire Sample.formatError Sample.config 0) Sample.polling tt))
     = [{| cb_channel := "C1"; cb_user := "U2";
           cb_messageTs := "1700000001.000200"; polls := 1;
           lastMessageCount := 1; cleared := true |}].
Proof. by vm_compute. Qed.

(** The timeout does not come within 300 calls: after 300 calls of the callback with the Continue
    API processing throughout, no update has been sent and the interval
    has not been cleared; the callback is called a 301st time, and that
    call sends the timeout notice. *)
Lemma timeout_not_within_300_calls :
  count is_update
    (trace (run_ticks Sample.formatError Sample.config (scripted Sample.busy)
              300 0 Sample.polling tt)) = O
  /\ cleared <$> intervals
                   (memory (run_ticks Sample.formatError Sample.config
                              (scripted Sample.busy) 300 0 Sample.polling tt)) !! O
     = Some false
  /\ polls <$> intervals
                 (memory (run_ticks Sample.formatError Sample.config
                            (scripted Sample.busy) 301 0 Sample.polling tt)) !! O
     = Some 301%nat
  /\ count is_timeout_update
       (trace (run_ticks Sample.formatError Sample.config (scripted Sample.busy)
                 301 0 Sample.polling tt)) = 1%nat.
Proof. by vm_compute. Qed.

(** The notice for an empty text is not ephemeral: for the text ["<@U1>"], which is empty once the
    mention is removed, the notice is sent with [chat.postMessage]; no
    ephemeral message is sent. *)
Lemma empty_text_notice_not_ephemeral :
  extractMessageText Sample.new_RegExp "<@U1>" "U1" = Returned ""
  /\ trace (run (scripted Sample.busy)
              (handleEvent Sample.formatError Sample.new_RegExp Sample.config (Sample.payload "<@U1>"))
              empty_sys tt)
     = [SlackPostMessage "xoxb-1"
          {| msg_channel := "C1"; msg_text := please_provide_text;
             thread_ts := None |}]
  /\ count is_ephemeral
       (trace (run (scripted Sample.busy)
                 (handleEvent Sample.formatError Sample.new_RegExp Sample.config (Sample.payload "<@U1>"))
                 empty_sys tt)) = O.
Proof. by vm_compute. Qed.

Lemma sample_processable (t : string) :
  isBotMentioned t "U1" = true -> processable Sample.config (event (Sample.payload t)).
Proof.
  intros H. split; [reflexivity|]. split; [discriminate|]. right. exact H.
Defined.

Lemma verify_unparsed_timestamp_falls_through_witness :
  JsString.parseInt "abc" = NaN
  /\ verifySlackSignature Sample.hmac 1700000000000 "s3cr3t" "v0=bad" "abc" "{}"
     = timingSafeEqual (mySignature Sample.hmac "s3cr3t" "abc" "{}") "v0=bad".
Proof.
  split; [reflexivity|].
  exact (proj1 (verify_unparsed_timestamp_falls_through Sample.hmac
                  1700000000000 "s3cr3t" "v0=bad" "abc" "{}" eq_refl)).
Defined.

Lemma dedup_key_released_witness :
  (messageId (event (Sample.payload "<@U(> hello")) ∉ processingMessages empty_sys)
  /\ processable Sample.unclosed (event (Sample.payload "<@U(> hello"))
  /\ (messageId (event (Sample.payload "<@U(> hello"))
      ∉ processingMessages
          (memory (run (scripted Sample.busy)
                     (handleEvent Sample.formatError Sample.new_RegExp Sample.unclosed
                        (Sample.payload "<@U(> hello"))
                     empty_sys tt)))
  /\ completed (run (scripted Sample.busy)
                  (handleEvent Sample.formatError Sample.new_RegExp Sample.unclosed
                     (Sample.payload "<@U(> hello"))
                  empty_sys tt)
     = Threw (Error "Invalid regular expression").
Proof.
  assert (H : messageId (event (Sample.payload "<@U(> hello"))
              ∉ processingMessages empty_sys) by apply not_elem_of_empty.
  assert (Hp : processable Sample.unclosed (event (Sample.payload "<@U(> hello"))).
  { split; [reflexivity|]. split; [discriminate|]. right. reflexivity. }
  split; [exact H|]. split; [exact Hp|].
  pose proof (dedup_key_released Sample.formatError Sample.new_RegExp Sample.unclosed
                unit (scripted Sample.busy) (Sample.payload "<@U(> hello")
                empty_sys tt H) as (Hfree & Hthrows).
  split; [exact Hfree|].
  exact (proj1 (Hthrows _ Hp eq_refl)).
Defined.

Lemma duplicate_delivery_dropped_witness :
  exists c k s1,
    run_steps (scripted Sample.busy) 1
      (handleEvent Sample.formatError Sample.new_RegExp Sample.config (Sample.payload "<@U1> hello"))
      empty_sys tt = (Blocked c k, s1, tt)
    /\ messageId (event (Sample.payload "<@U1> hello")) ∈ processingMessages s1
    /\ run (scripted Sample.busy)
         (handleEvent Sample.formatError Sample.new_RegExp Sample.config (Sample.payload "<@U1> again"))
         s1 tt
       = {| completed := Returned tt; memory := s1; outside := tt; trace := [] |}.
Proof.
  eexists _, _, _. split; [reflexivity|].
  pose proof (duplicate_delivery_dropped Sample.formatError Sample.new_RegExp
                Sample.config unit
                (scripted Sample.busy)
                (Sample.payload "<@U1> hello") (Sample.payload "<@U1> again")
                1 empty_sys tt _ _ _ tt eq_refl eq_refl eq_refl) as [Hheld Hdrop].
  split; [exact Hheld|exact (Hdrop tt)].
Defined.

Lemma empty_text_asks_for_message_witness :
  processable Sample.config (event (Sample.payload "<@U1>"))
  /\ (messageId (event (Sample.payload "<@U1>")) ∉ processingMessages empty_sys)
  /\ extractMessageText Sample.new_RegExp "<@U1>" "U1" = Returned ""
  /\ trace (run (scripted Sample.busy)
              (handleEvent Sample.formatError Sample.new_RegExp Sample.config (Sample.payload "<@U1>"))
              empty_sys tt)
     = [SlackPostMessage "xoxb-1"
          {| msg_channel := "C1"; msg_text := please_provide_text;
             thread_ts := None |}].
Proof.
  assert (Hp : processable Sample.config (event (Sample.payload "<@U1>")))
    by (apply sample_processable; reflexivity).
  assert (Hk : messageId (event (Sample.payload "<@U1>")) ∉ processingMessages empty_sys)
    by apply not_elem_of_empty.
  split; [exact Hp|]. split; [exact Hk|]. split; [reflexivity|].
  exact (proj1 (empty_text_asks_for_message Sample.formatError Sample.new_RegExp
                  Sample.config unit
                  (scripted Sample.busy) (Sample.payload "<@U1>") empty_sys tt
                  Hp Hk eq_refl)).
Defined.

Lemma failed_submission_reports_error_witness :
  processable Sample.config (event (Sample.payload "<@U1> hello"))
  /\ extractMessageText Sample.new_RegExp "<@U1> hello" "U1" = Returned "hello"
  /\ submission_error (message_answer Sample.failing) = Some (api_error 500)
  /\ trace (run (scripted Sample.failing)
              (handleEvent Sample.formatError Sample.new_RegExp Sample.config
                 (Sample.payload "<@U1> hello"))
              empty_sys tt)
     = [SlackPostMessage "xoxb-1" Sample.ack_message;
        ContinueMessage "http://localhost:8000/message" "hello";
        SlackUpdate "xoxb-1" "C1" "1700000001.000200"
          "❌ Error processing your request: Continue API returned 500"]
  /\ intervals (memory (run (scripted Sample.failing)
                          (handleEvent Sample.formatError Sample.new_RegExp Sample.config
                             (Sample.payload "<@U1> hello"))
                          empty_sys tt)) = [].
Proof.
  assert (Hp : processable Sample.config (event (Sample.payload "<@U1> hello")))
    by (apply sample_processable; reflexivity).
  assert (Hk : messageId (event (Sample.payload "<@U1> hello"))
               ∉ processingMessages empty_sys) by apply not_elem_of_empty.
  assert (He : extractMessageText Sample.new_RegExp
                 (text (event (Sample.payload "<@U1> hello")))
                 (botUserId Sample.config) = Returned "hello") by reflexivity.
  assert (Hm : "hello" <> "") by discriminate.
  split; [exact Hp|]. split; [exact He|]. split; [reflexivity|].
  exact (failed_submission_reports_error Sample.formatError Sample.new_RegExp
           Sample.config unit
           (scripted Sample.failing) (Sample.payload "<@U1> hello") empty_sys tt
           "hello"
           (slack_ok "1700000001.000200") tt "1700000001.000200"
           (message_answer Sample.failing) tt (api_error 500)
           Hp Hk He Hm eq_refl eq_refl eq_refl eq_refl).
Defined.

Lemma timeout_on_call_301_witness :
  (forall w0, exists st,
      reported (fst (scripted Sample.busy (ContinueGet "http://localhost:8000/state") w0))
      = Some st /\ isProcessing st = true)
  /\ trace (run (scripted Sample.busy) (fire Sample.formatError Sample.config 0)
              (memory (run_ticks Sample.formatError Sample.config
                         (scripted Sample.busy) 300 0 Sample.polling tt))
              (outside (run_ticks Sample.formatError Sample.config
                          (scripted Sample.busy) 300 0 Sample.polling tt)))
     = [SlackUpdate "xoxb-1" "C1" "1700000001.000200" timeout_text].
Proof.
  assert (Hbusy : forall w0, exists st,
             reported (fst (scripted Sample.busy
                              (ContinueGet "http://localhost:8000/state") w0))
             = Some st /\ isProcessing st = true).
  { intros w0. eexists. split; reflexivity. }
  split; [exact Hbusy|].
  exact (proj1 (proj1 (proj2 (timeout_on_call_301 Sample.formatError Sample.config
                                unit (scripted Sample.busy) 0 Sample.polling tt
                                Sample.session eq_refl eq_refl eq_refl Hbusy)))).
Defined.

Lemma same_history_length_no_second_relay_witness :
  observed_history (state_answer Sample.answering)
  = Some [user_entry "hello"; assistant_entry "42"]
  /\ count is_content_update
       (trace (run (scripted Sample.answering)
                 (fire Sample.formatError Sample.config 0) Sample.polling tt)) = 1%nat
  /\ count is_content_update
       (trace (run (scripted Sample.answering)
                 (fire Sample.formatError Sample.config 0)
                 (memory (run (scripted Sample.answering)
                            (fire Sample.formatError Sample.config 0)
                            Sample.polling tt))
                 (outside (run (scripted Sample.answering)
                             (fire Sample.formatError Sample.config 0)
                             Sample.polling tt)))) = O.
Proof.
  split; [reflexivity|]. split; [by vm_compute|].
  exact (proj1 (same_history_length_no_second_relay Sample.formatError Sample.config
                  unit (scripted Sample.answering) 0 Sample.polling tt
                  (state_answer Sample.answering) tt
                  (state_answer Sample.answering) tt
                  [user_entry "hello"; assistant_entry "42"]
                  [user_entry "hello"; assistant_entry "42"]
                  eq_refl eq_refl eq_refl eq_refl eq_refl)).
Defined.

Lemma duplicate_after_return_starts_second_session_witness :
  processable Sample.config (event (Sample.payload "<@U1> hello"))
  /\ intervals
       (memory
          (run (scripted Sample.busy)
             (handleEvent Sample.formatError Sample.new_RegExp Sample.config (Sample.payload "<@U1> hello"))
             (memory
                (run_ticks Sample.formatError Sample.config (scripted Sample.busy) 3 0
                   (memory (run (scripted Sample.busy)
                              (handleEvent Sample.formatError Sample.new_RegExp Sample.config
                                 (Sample.payload "<@U1> hello")) empty_sys tt))
                   tt))
             tt)) !! 1%nat
     = Some {| cb_channel := "C1"; cb_user := "U2";
               cb_messageTs := "1700000001.000200"; polls := O;
               lastMessageCount := O; cleared := false |}
  /\ (messageId (event (Sample.payload "<@U1> hello"))
      ∉ processingMessages
          (memory (run (scripted Sample.busy)
                     (handleEvent Sample.formatError Sample.new_RegExp Sample.config
                        (Sample.payload "<@U1> hello")) empty_sys tt))).
Proof.
  assert (Hp : processable Sample.config (event (Sample.payload "<@U1> hello")))
    by (apply sample_processable; reflexivity).
  assert (Hk : messageId (event (Sample.payload "<@U1> hello"))
               ∉ processingMessages empty_sys) by apply not_elem_of_empty.
  assert (He : extractMessageText Sample.new_RegExp
                 (text (event (Sample.payload "<@U1> hello")))
                 (botUserId Sample.config) = Returned "hello") by reflexivity.
  assert (Hm : "hello" <> "") by discriminate.
  assert (Hslack : forall (w0 : unit) m, exists t,
             acknowledged (fst (scripted Sample.busy
                                  (SlackPostMessage (botToken Sample.config) m) w0))
             = Some t).
  { intros w0 m. eexists. reflexivity. }
  assert (Hapi : forall (w0 : unit) u m,
             submission_error (fst (scripted Sample.busy (ContinueMessage u m) w0)) = None).
  { intros w0 u m. reflexivity. }
  pose proof (duplicate_after_return_starts_second_session Sample.formatError
                Sample.new_RegExp Sample.config unit (scripted Sample.busy)
                (Sample.payload "<@U1> hello") empty_sys tt 3 "hello"
                Hp Hk He Hm Hslack Hapi)
    as (Hk1 & _ & _ & (t2 & _ & E2) & _).
  split; [exact Hp|]. split; [|exact Hk1].
  by vm_compute.
Defined.

(** * Further properties of the code *)

(** ** Running composed resumptions *)

Section RunFacts.

Variable W : Type.
Variable world : forall c : call, W -> resp c * W.

Lemma run_bind {A B : Type} (p : prog A) (f : A -> prog B) : forall s w,
  run world (bind p f) s w
  = match completed (run world p s w) with
    | Returned a =>
        {| completed := completed (run world (f a) (memory (run world p s w))
                                     (outside (run world p s w)));
           memory := memory (run world (f a) (memory (run world p s w))
                               (outside (run world p s w)));
           outside := outside (run world (f a) (memory (run world p s w))
                                 (outside (run world p s w)));
           trace := (trace (run world p s w)
                     ++ trace (run world (f a) (memory (run world p s w))
                                 (outside (run world p s w))))%list |}
    | Threw e =>
        {| completed := Threw e; memory := memory (run world p s w);
           outside := outside (run world p s w); trace := trace (run world p s w) |}
    end.
Proof.
  induction p as [a|e|X g k IH|c k IH]; intros s w; cbn.
  - by destruct (run world (f a) s w).
  - done.
  - destruct (g s) as [x s']. apply IH.
  - destruct (world c w) as [r w']. rewrite IH.
    by destruct (completed (run world (k r) s w')).
Qed.

Lemma run_try_catch {A : Type} (p : prog A) (h : JsError -> prog A) : forall s w,
  run world (try_catch p h) s w
  = match completed (run world p s w) with
    | Returned a => run world p s w
    | Threw e =>
        {| completed := completed (run world (h e) (memory (run world p s w))
                                     (outside (run world p s w)));
           memory := memory (run world (h e) (memory (run world p s w))
                               (outside (run world p s w)));
           outside := outside (run world (h e) (memory (run world p s w))
                                 (outside (run world p s w)));
           trace := (trace (run world p s w)
                     ++ trace (run world (h e) (memory (run world p s w))
                                 (outside (run world p s w))))%list |}
    end.
Proof.
  induction p as [a|e|X g k IH|c k IH]; intros s w; cbn.
  - done.
  - by destruct (run world (h e) s w).
  - destruct (g s) as [x s']. apply IH.
  - destruct (world c w) as [r w']. rewrite IH.
    destruct (completed (run world (k r) s w')) eqn:E; [|done].
    destruct (run world (k r) s w'); cbn in *. by subst.
Qed.

(** A lifted resumption runs as it does on its own; how it completes
    becomes a value. *)
Lemma run_web_lift {A : Type} (p : prog A) (x : Exchange) s w :
  run world (web_lift p x) s w
  = {| completed := Returned (completed (run world p s w), x);
       memory := memory (run world p s w);
       outside := outside (run world p s w);
       trace := trace (run world p s w) |}.
Proof.
  unfold web_lift. rewrite run_try_catch, run_bind.
  destruct (completed (run world p s w)) eqn:E; cbn; rewrite ?E; cbn.
  - by rewrite app_nil_r.
  - by rewrite app_nil_r.
Qed.

End RunFacts.

(** ** client.ts *)

Section ClientFacts.

Variable formatError : JsError -> string.
Variable W : Type.
Variable world : forall c : call, W -> resp c * W.

Ltac answer :=
  match goal with
  | H : world ?c ?w = _ |- context [world ?c ?w] => rewrite H
  | |- context [world ?c ?w] =>
      let r := fresh "r" in
      let w' := fresh "w" in
      destruct (world c w) as [r w']; cbn in r;
      destruct r as [?|? ? [?|?]]
  | |- context [if ?b then _ else _] => destruct b eqn:?
  end.

(** The three methods of [SlackClient] never throw: each sends exactly one
    request, returns a value, and leaves the in-flight set and the
    intervals alone. *)
Theorem client_methods_return_values bearer s w :
  (forall m,
      (exists data, completed (run world (postMessage formatError bearer m) s w)
                    = Returned data)
      /\ trace (run world (postMessage formatError bearer m) s w)
         = [SlackPostMessage bearer m]
      /\ processingMessages (memory (run world (postMessage formatError bearer m) s w))
         = processingMessages s
      /\ intervals (memory (run world (postMessage formatError bearer m) s w))
         = intervals s)
  /\ (forall ch t txt,
      (exists data, completed (run world (updateMessage formatError bearer ch t txt) s w)
                    = Returned data)
      /\ trace (run world (updateMessage formatError bearer ch t txt) s w)
         = [SlackUpdate bearer ch t txt]
      /\ processingMessages
           (memory (run world (updateMessage formatError bearer ch t txt) s w))
         = processingMessages s
      /\ intervals (memory (run world (updateMessage formatError bearer ch t txt) s w))
         = intervals s)
  /\ (forall ch u txt,
      (exists data, completed (run world (postEphemeral formatError bearer ch u txt) s w)
                    = Returned data)
      /\ trace (run world (postEphemeral formatError bearer ch u txt) s w)
         = [SlackPostEphemeral bearer ch u txt]
      /\ processingMessages
           (memory (run world (postEphemeral formatError bearer ch u txt) s w))
         = processingMessages s
      /\ intervals (memory (run world (postEphemeral formatError bearer ch u txt) s w))
         = intervals s).
Proof.
  split; [|split]; intros; unfold postMessage, updateMessage, postEphemeral, slack_request.
  all: repeat (cbn; try answer); eauto.
Qed.

(** A request that is rejected, or answered with a body that cannot be
    parsed, gives the value [{ ok: false, error: formatError(e) }] and one
    error in the log. *)
Theorem client_failure_is_a_value bearer m s w r w' e :
  world (SlackPostMessage bearer m) w = (r, w') ->
  (r = Rejected e \/ exists o st, r = Response o st (Threw e)) ->
  completed (run world (postMessage formatError bearer m) s w)
  = Returned {| ok := false; resp_channel := None; ts := None;
                error := Some (formatError e) |}
  /\ logs (memory (run world (postMessage formatError bearer m) s w))
     = (logs s ++ [(Err, ("Error posting Slack message: " ++ formatError e)%string)])%list
  /\ outside (run world (postMessage formatError bearer m) s w) = w'.
Proof.
  intros Hw [->|(o & st & ->)]; unfold postMessage, slack_request; cbn; by rewrite Hw.
Qed.

(** The same for [updateMessage], on which the polling callback relies. *)
Lemma update_failure_is_a_value bearer ch t txt s w r w' e :
  world (SlackUpdate bearer ch t txt) w = (r, w') ->
  (r = Rejected e \/ exists o st, r = Response o st (Threw e)) ->
  completed (run world (updateMessage formatError bearer ch t txt) s w)
  = Returned {| ok := false; resp_channel := None; ts := None;
                error := Some (formatError e) |}
  /\ logs (memory (run world (updateMessage formatError bearer ch t txt) s w))
     = (logs s ++ [(Err, ("Error updating Slack message: " ++ formatError e)%string)])%list.
Proof.
  intros Hw [->|(o & st & ->)]; unfold updateMessage, slack_request; cbn; by rewrite Hw.
Qed.

(** A body that parses is returned as it is, whatever [response.ok] and
    [response.status] are; an error is logged exactly when the body says
    [ok: false]. *)
Theorem client_returns_parsed_body bearer m s w o st data w' :
  world (SlackPostMessage bearer m) w = (Response o st (Returned data), w') ->
  completed (run world (postMessage formatError bearer m) s w) = Returned data
  /\ logs (memory (run world (postMessage formatError bearer m) s w))
     = (if ok data then logs s
        else (logs s ++ [(Err, ("Failed to post Slack message: "
                                 ++ template_opt (error data))%string)])%list).
Proof.
  intros Hw. unfold postMessage, slack_request. cbn. rewrite Hw. cbn.
  destruct (ok data); cbn; [|done]. by destruct s.
Qed.

End ClientFacts.

(** ** The event classifier *)

Lemma includes_cons (c : ascii) (r t : string) :
  JsString.includes (String c r) t
  = String.prefix t (String c r) || JsString.includes r t.
Proof. reflexivity. Qed.

Lemma includes_nil (t : string) :
  JsString.includes "" t = String.prefix t "" || false.
Proof. reflexivity. Qed.

(** Where the token does not occur, nothing is removed. *)
Lemma remove_from_absent (t s : string) :
  JsString.includes s t = false -> JsString.remove_from O t s = s.
Proof.
  induction s as [|c r IH]; [done|].
  rewrite includes_cons. cbn [JsString.remove_from].
  intros H. apply orb_false_iff in H as [Hp Hr].
  rewrite Hp. by rewrite IH.
Qed.

Lemma removeAll_absent (s t : string) :
  JsString.includes s t = false -> JsString.removeAll s t = s.
Proof.
  intros H. unfold JsString.removeAll. destruct t; [done|].
  by apply remove_from_absent.
Qed.

Lemma append_cons (c : ascii) (a b : string) : String c a ++ b = String c (a ++ b).
Proof. reflexivity. Qed.

Lemma append_nil (b : string) : "" ++ b = b.
Proof. reflexivity. Qed.

Lemma prefix_app (t b : string) : String.prefix t (t ++ b) = true.
Proof.
  induction t as [|c t IH].
  - rewrite append_nil. by destruct b.
  - rewrite append_cons. cbn [String.prefix].
    destruct (ascii_dec c c); [exact IH|done].
Qed.

Lemma includes_app (a t b : string) : JsString.includes (a ++ t ++ b) t = true.
Proof.
  induction a as [|c a IH].
  - rewrite append_nil. destruct (t ++ b) eqn:E.
    + destruct t; [done|]. by rewrite append_cons in E.
    + rewrite includes_cons, <- E. by rewrite prefix_app.
  - rewrite append_cons, includes_cons, IH. apply orb_true_r.
Qed.

Lemma prefix_split (t s : string) :
  String.prefix t s = true -> exists b, s = t ++ b.
Proof.
  revert s. induction t as [|c t IH]; intros s H.
  - by exists s.
  - destruct s as [|c' s]; [done|]. cbn [String.prefix] in H.
    destruct (ascii_dec c c') as [->|]; [|done].
    destruct (IH s H) as [b ->]. by exists b.
Qed.

(** [isBotMentioned] is true exactly for the texts in which the mention
    token occurs. *)
Theorem isBotMentioned_iff_occurs (txt botUserId : string) :
  isBotMentioned txt botUserId = true
  <-> exists a b, txt = a ++ mention botUserId ++ b.
Proof.
  unfold isBotMentioned. split.
  - induction txt as [|c r IH]; rewrite ?includes_nil, ?includes_cons; intros H.
    + apply orb_true_iff in H as [H|H]; [|done].
      apply prefix_split in H as [b Hb]. by exists "", b.
    + apply orb_true_iff in H as [H|H].
      * apply prefix_split in H as [b Hb]. by exists "", b.
      * destruct (IH H) as (a & b & ->). by exists (String c a), b.
  - intros (a & b & ->). apply includes_app.
Qed.

Lemma extract_without_mention new_RegExp (txt botUserId : string) :
  compiles_plain_patterns new_RegExp ->
  plain botUserId = true ->
  isBotMentioned txt botUserId = false ->
  extractMessageText new_RegExp txt botUserId = Returned (JsString.trim txt).
Proof.
  intros Hc Hp H. rewrite extractMessageText_plain by done.
  by rewrite removeAll_absent.
Qed.

(** For a bot user id without syntax characters, compiled by an engine
    that takes such patterns as they are written: without a mention, the
    extracted text is the trimmed text, and nothing is thrown. *)
Theorem extractMessageText_without_mention new_RegExp (txt botUserId : string) :
  compiles_plain_patterns new_RegExp ->
  plain botUserId = true ->
  isBotMentioned txt botUserId = false ->
  extractMessageText new_RegExp txt botUserId = Returned (JsString.trim txt).
Proof.
  intros Hc Hp H. rewrite extractMessageText_plain by done.
  by rewrite removeAll_absent.
Qed.

(** ** More on the event-processing routine *)

Section HandleEventMore.

Variable formatError : JsError -> string.
Variable new_RegExp : string -> completion RegExp.
Variable config : SlackIntegrationConfig.
Variable W : Type.
Variable world : forall c : call, W -> resp c * W.

Ltac ask_world :=
  match goal with
  | H : world ?c ?w = _ |- context [world ?c ?w] => rewrite H
  | |- context [world ?c ?w] =>
      let r := fresh "r" in
      let w' := fresh "w" in
      destruct (world c w) as [r w'] eqn:?; cbn in r;
      destruct r as [?|? ? [?|?]]
  end.

Ltac branch :=
  match goal with
  | |- context [if ?b then _ else _] => destruct b eqn:?
  end.

Ltac extraction :=
  match goal with
  | |- context [extractMessageText ?f ?t ?i] =>
      destruct (extractMessageText f t i) eqn:?
  end.

Ltac exec := repeat (cbn; first [extraction | branch | ask_world]).

(** Events that are not messages, and the bot's own messages, are
    ignored: nothing is sent and the memory is left as it is. *)
Theorem handleEvent_ignores_foreign_events payload s w :
  type (event payload) <> "message" \/ user (event payload) = botUserId config ->
  run world (handleEvent formatError new_RegExp config payload) s w
  = {| completed := Returned tt; memory := s; outside := w; trace := [] |}.
Proof.
  intros H. unfold handleEvent.
  destruct (String.eqb_spec (type (event payload)) "message") as [Ht|Ht]; cbn [negb].
  - destruct H as [H|H]; [done|]. by rewrite H, String.eqb_refl.
  - done.
Qed.

(** A message in a channel that does not mention the bot is not
    forwarded: nothing is sent, nothing is logged, no interval is created,
    and the in-flight set is as before. *)
Theorem unmentioned_channel_message_not_forwarded payload s w :
  isDirectMessage (event payload) = false ->
  isBotMentioned (text (event payload)) (botUserId config) = false ->
  trace (run world (handleEvent formatError new_RegExp config payload) s w) = []
  /\ intervals (memory (run world (handleEvent formatError new_RegExp config payload) s w))
     = intervals s
  /\ logs (memory (run world (handleEvent formatError new_RegExp config payload) s w)) = logs s
  /\ processingMessages (memory (run world (handleEvent formatError new_RegExp config payload) s w))
     = processingMessages s.
Proof.
  intros Hdm Hm. split; [|split; [|split; [|apply handleEvent_keeps_set]]].
  all: unfold handleEvent, process; rewrite Hdm, Hm; exec; done.
Qed.

(** A direct message is forwarded without any mention: it is
    acknowledged, and what is submitted is its trimmed text.  This is
    for a bot user id without syntax characters, compiled by an engine
    that takes such patterns as they are written. *)
Theorem direct_message_forwarded_trimmed payload s w ack w1 ackTs :
  compiles_plain_patterns new_RegExp ->
  plain (botUserId config) = true ->
  type (event payload) = "message" ->
  user (event payload) <> botUserId config ->
  messageId (event payload) ∉ processingMessages s ->
  isDirectMessage (event payload) = true ->
  isBotMentioned (text (event payload)) (botUserId config) = false ->
  JsString.trim (text (event payload)) <> "" ->
  world (SlackPostMessage (botToken config)
           {| msg_channel := channel (event payload);
              msg_text := processing_text; thread_ts := None |}) w = (ack, w1) ->
  acknowledged ack = Some ackTs ->
  exists rest,
    trace (run world (handleEvent formatError new_RegExp config payload) s w)
    = SlackPostMessage (botToken config)
        {| msg_channel := channel (event payload);
           msg_text := processing_text; thread_ts := None |}
      :: ContinueMessage (continueApiUrl config ++ "/message")
           (JsString.trim (text (event payload)))
      :: rest.
Proof.
  intros Hc Hpl Ht Hu Hk Hdm Hm He Hack Hts.
  assert (Hp : processable config (event payload)) by (by split; [|split; [|left]]).
  rewrite handleEvent_processable by done.
  unfold process, submit. cbn. rewrite Hdm. cbn.
  rewrite (extract_without_mention _ _ _ Hc Hpl Hm).
  destruct (JsString.trim _) as [|a0 m] eqn:Hm'; [done|].
  cbn. rewrite Hack.
  destruct ack as [e|o st [data|e]]; cbn in Hts; try done.
  destruct (ok data) eqn:Hok; cbn in Hts; [|done].
  destruct (truthy_opt (ts data)) eqn:Htr; [|done].
  repeat (cbn; rewrite ?Hok, ?Htr, ?Hts).
  exec; by eexists.
Qed.

(** When there is a text to submit ([extractMessageText] returns a
    string that is not empty) and the acknowledgement cannot be posted,
    or comes back without a message timestamp, the routine stops:
    nothing is submitted, no interval is created, and the failure is
    logged. *)
Theorem failed_acknowledgement_stops payload s w messageText ack w1 :
  processable config (event payload) ->
  messageId (event payload) ∉ processingMessages s ->
  extractMessageText new_RegExp (text (event payload)) (botUserId config)
  = Returned messageText ->
  messageText <> "" ->
  world (SlackPostMessage (botToken config)
           {| msg_channel := channel (event payload);
              msg_text := processing_text; thread_ts := None |}) w = (ack, w1) ->
  acknowledged ack = None ->
  trace (run world (handleEvent formatError new_RegExp config payload) s w)
  = [SlackPostMessage (botToken config)
       {| msg_channel := channel (event payload);
          msg_text := processing_text; thread_ts := None |}]
  /\ intervals (memory (run world (handleEvent formatError new_RegExp config payload) s w))
     = intervals s
  /\ last (logs (memory (run world (handleEvent formatError new_RegExp config payload) s w)))
     = Some (Err, "Failed to send acknowledgment message").
Proof.
  intros Hp Hk He Hm Hack Hts.
  rewrite handleEvent_processable by done.
  unfold process, submit. cbn.
  rewrite (processable_routed config _ Hp), He.
  destruct messageText as [|a0 m]; [done|].
  cbn. rewrite Hack.
  destruct ack as [e|o st [data|e]]; cbn in Hts; cbn.
  - by rewrite last_snoc.
  - destruct (ok data) eqn:Hok; cbn in Hts.
    + destruct (truthy_opt (ts data)) eqn:Htr.
      * destruct (ts data); done.
      * repeat (cbn; rewrite ?Hok, ?Htr). by rewrite last_snoc.
    + repeat (cbn; rewrite ?Hok). by rewrite last_snoc.
  - by rewrite last_snoc.
Qed.

(** Whatever happens, one delivery posts at most one new message, submits
    at most once, edits at most once, and never sends an ephemeral message
    or a state query; every request to Slack carries the bot token and the
    channel of the event. *)
Theorem handleEvent_requests payload s w :
  (count is_post (trace (run world (handleEvent formatError new_RegExp config payload) s w)) <= 1)%nat
  /\ (count is_submission
        (trace (run world (handleEvent formatError new_RegExp config payload) s w)) <= 1)%nat
  /\ (count is_update
        (trace (run world (handleEvent formatError new_RegExp config payload) s w)) <= 1)%nat
  /\ count is_ephemeral
       (trace (run world (handleEvent formatError new_RegExp config payload) s w)) = O
  /\ count is_state_query
       (trace (run world (handleEvent formatError new_RegExp config payload) s w)) = O
  /\ Forall (fun c => forall b ch,
                 relay_target c = Some (b, ch) ->
                 b = botToken config /\ ch = channel (event payload))
       (trace (run world (handleEvent formatError new_RegExp config payload) s w)).
Proof.
  unfold handleEvent, process, submit. exec; cbn.
  all: rewrite ?count_cons, ?count_nil; cbn.
  all: repeat (split; [lia|]).
  all: repeat (apply Forall_cons; split; [cbn; intros b ch; intros [= <- <-]; done|]).
  all: apply Forall_nil_2.
Qed.

(** The order of a session's first steps: the acknowledgement is posted,
    then the text [extractMessageText] returned is submitted, then the
    acknowledgement is edited to say that the request is queued, and
    only then the interval is created, with no poll counted and nothing
    relayed. *)
Theorem accepted_submission_starts_polling payload s w messageText ack w1 ackTs sub w2 :
  processable config (event payload) ->
  messageId (event payload) ∉ processingMessages s ->
  extractMessageText new_RegExp (text (event payload)) (botUserId config)
  = Returned messageText ->
  messageText <> "" ->
  world (SlackPostMessage (botToken config)
           {| msg_channel := channel (event payload);
              msg_text := processing_text; thread_ts := None |}) w = (ack, w1) ->
  acknowledged ack = Some ackTs ->
  world (ContinueMessage (continueApiUrl config ++ "/message") messageText) w1
  = (sub, w2) ->
  submission_error sub = None ->
  trace (run world (handleEvent formatError new_RegExp config payload) s w)
  = [SlackPostMessage (botToken config)
       {| msg_channel := channel (event payload);
          msg_text := processing_text; thread_ts := None |};
     ContinueMessage (continueApiUrl config ++ "/message") messageText;
     SlackUpdate (botToken config) (channel (event payload)) ackTs queued_text]
  /\ intervals (memory (run world (handleEvent formatError new_RegExp config payload) s w))
     = (intervals s
        ++ [{| cb_channel := channel (event payload);
               cb_user := user (event payload);
               cb_messageTs := ackTs; polls := O; lastMessageCount := O;
               cleared := false |}])%list
  /\ (messageId (event payload)
      ∉ processingMessages
          (memory (run world (handleEvent formatError new_RegExp config payload) s w))).
Proof.
  intros Hp Hk He Hm Hack Hts Hsub Herr.
  destruct (handleEvent_starts_session formatError new_RegExp config W world
              payload s w messageText
              ack w1 ackTs sub w2 Hp Hk He Hm Hack Hts Hsub Herr) as [Htr Hiv].
  split; [exact Htr|]. split; [exact Hiv|].
  by rewrite handleEvent_keeps_set.
Qed.

End HandleEventMore.

(** ** More on the interval callback *)

Section TickMore.

Variable formatError : JsError -> string.
Variable config : SlackIntegrationConfig.
Variable W : Type.
Variable world : forall c : call, W -> resp c * W.

Abbreviation callback := (fire formatError config).
Abbreviation poll_url := (continueApiUrl config ++ "/state").

Ltac ask_world :=
  match goal with
  | H : world ?c ?w = _ |- context [world ?c ?w] => rewrite H
  | |- context [world ?c ?w] =>
      let r := fresh "r" in
      let w' := fresh "w" in
      destruct (world c w) as [r w'] eqn:?; cbn in r;
      destruct r as [?|? ? [?|?]]
  end.

Ltac branch :=
  match goal with
  | |- context [if ?b then _ else _] => destruct b eqn:?
  end.

Ltac look :=
  match goal with
  | |- context [intervals (update_interval ?i _ _) !! ?i] =>
      rewrite lookup_update_interval
  | H : intervals ?s !! ?i = _ |- context [intervals ?s !! ?i] => rewrite H
  | |- context [processingMessages (update_interval _ _ _)] =>
      rewrite processingMessages_update_interval
  | |- context [match history ?st with _ => _ end] => destruct (history st) eqn:?
  | |- context [match assistant_content ?h with _ => _ end] =>
      destruct (assistant_content h) eqn:?
  end.

Ltac exec := repeat (cbn; first [look | branch | ask_world]); cbn.

Ltac nat_facts :=
  repeat match goal with
    | H : Nat.ltb _ _ = true |- _ => apply Nat.ltb_lt in H
    | H : Nat.ltb _ _ = false |- _ => apply Nat.ltb_ge in H
    | H : Nat.eqb _ _ = true |- _ => apply Nat.eqb_eq in H
    | H : Nat.eqb _ _ = false |- _ => apply Nat.eqb_neq in H
    end.

Ltac absurd_tests := try (exfalso; nat_facts; simpl length in *; lia).

Ltac enter E Hc :=
  unfold fire, tick, poll_state; cbn; rewrite E, Hc; cbn;
  rewrite lookup_update_interval, E; cbn.

(** A state query that fails ends the session at once: the request is
    rejected, its status is not a success, or its body does not parse.
    The interval is cleared and the message is edited once, to show the
    formatted error; the query is not repeated. *)
Theorem failed_query_ends_session id s w iv r w1 e :
  intervals s !! id = Some iv ->
  cleared iv = false ->
  (polls iv < maxPolls)%nat ->
  world (ContinueGet poll_url) w = (r, w1) ->
  query_error r = Some e ->
  trace (run world (callback id) s w)
  = [ContinueGet poll_url;
     SlackUpdate (botToken config) (cb_channel iv) (cb_messageTs iv)
       ("❌ Error getting results: " ++ formatError e)]
  /\ exists iv',
       intervals (memory (run world (callback id) s w)) !! id = Some iv'
       /\ cleared iv' = true
       /\ lastMessageCount iv' = lastMessageCount iv.
Proof.
  intros E Hc Hp Hw Hr. enter E Hc.
  destruct (Nat.ltb_spec maxPolls (S (polls iv))) as [?|_]; [lia|].
  cbn. rewrite Hw.
  destruct r as [e0|[] status [st|e0]]; cbn in Hr; try done.
  all: injection Hr as <-.
  all: exec; (split; [done|]).
  all: repeat (rewrite ?lookup_update_interval, ?E; cbn); by eexists.
Qed.

(** The last answer and the end of processing seen by the same call: the
    content is relayed, the interval is cleared, and no generic notice
    follows. *)
Theorem final_answer_relayed_once id s w iv r w1 st h c :
  intervals s !! id = Some iv ->
  cleared iv = false ->
  (polls iv < maxPolls)%nat ->
  world (ContinueGet poll_url) w = (r, w1) ->
  reported r = Some st ->
  history st = Some h ->
  (lastMessageCount iv < length h)%nat ->
  assistant_content h = Some c ->
  JsString.trim c <> "" ->
  isProcessing st = false ->
  queueLength st = 0 ->
  trace (run world (callback id) s w)
  = [ContinueGet poll_url;
     SlackUpdate (botToken config) (cb_channel iv) (cb_messageTs iv) (complete_text c)]
  /\ exists iv',
       intervals (memory (run world (callback id) s w)) !! id = Some iv'
       /\ cleared iv' = true
       /\ lastMessageCount iv' = length h.
Proof.
  intros E Hc Hp Hw Hr Hh Hlen Ha Htrim Hbusy Hq. enter E Hc.
  destruct (Nat.ltb_spec maxPolls (S (polls iv))) as [?|_]; [lia|].
  cbn. rewrite Hw.
  destruct r as [e0|[] status [st'|e0]]; cbn in Hr; try done.
  injection Hr as ->. cbn. rewrite Hh. cbn.
  rewrite lookup_update_interval, E. cbn.
  apply Nat.ltb_lt in Hlen as Hlt. rewrite Hlt. cbn.
  rewrite Ha, Hbusy, Hq.
  assert (Hc1 : JsString.truthy c = true).
  { destruct c; [|done]. by destruct Htrim. }
  assert (Hc2 : JsString.truthy (JsString.trim c) = true).
  { by destruct (JsString.trim c). }
  rewrite Hc1, Hc2.
  exec; absurd_tests.
  all: split; [done|]; repeat (rewrite ?lookup_update_interval, ?E; cbn); by eexists.
Qed.

(** Processing that ends before any history is shown: the interval is
    cleared and the message is edited once, to the generic notice. *)
Theorem finished_without_history_gets_notice id s w iv r w1 st :
  intervals s !! id = Some iv ->
  cleared iv = false ->
  (polls iv < maxPolls)%nat ->
  lastMessageCount iv = O ->
  world (ContinueGet poll_url) w = (r, w1) ->
  reported r = Some st ->
  history st = None \/ history st = Some [] ->
  isProcessing st = false ->
  queueLength st = 0 ->
  trace (run world (callback id) s w)
  = [ContinueGet poll_url;
     SlackUpdate (botToken config) (cb_channel iv) (cb_messageTs iv)
       processing_complete_text]
  /\ exists iv',
       intervals (memory (run world (callback id) s w)) !! id = Some iv'
       /\ cleared iv' = true.
Proof.
  intros E Hc Hp Hl Hw Hr Hh Hbusy Hq. enter E Hc.
  destruct (Nat.ltb_spec maxPolls (S (polls iv))) as [?|_]; [lia|].
  cbn. rewrite Hw.
  destruct r as [e0|[] status [st'|e0]]; cbn in Hr; try done.
  injection Hr as ->. cbn.
  destruct Hh as [-> | ->]; cbn; rewrite ?lookup_update_interval, ?E; cbn;
    rewrite ?Hl, Hbusy, Hq; cbn.
  all: repeat (rewrite ?lookup_update_interval, ?E; cbn); rewrite ?Hl; cbn.
  all: exec; absurd_tests; (split; [done|]).
  all: repeat (rewrite ?lookup_update_interval, ?E; cbn); by eexists.
Qed.

(** One call of the callback sends at most one state query and at most
    one request to Slack, and that request edits the session's own
    message with the bot token: the callback never posts a new message. *)
Theorem callback_requests id s w iv :
  intervals s !! id = Some iv ->
  (count is_state_query (trace (run world (callback id) s w)) <= 1)%nat
  /\ (count is_relay (trace (run world (callback id) s w)) <= 1)%nat
  /\ count is_submission (trace (run world (callback id) s w)) = O
  /\ Forall (fun c =>
               c = ContinueGet poll_url
               \/ exists txt,
                    c = SlackUpdate (botToken config) (cb_channel iv)
                          (cb_messageTs iv) txt)
       (trace (run world (callback id) s w)).
Proof.
  intros E. unfold fire, tick, poll_state. cbn. rewrite E.
  exec; absurd_tests.
  all: rewrite ?count_cons, ?count_nil; cbn.
  all: repeat (split; [lia|]).
  all: repeat (apply Forall_cons; split; [first [by left | right; by eexists]|]).
  all: apply Forall_nil_2.
Qed.

(** The callback of one interval leaves every other interval, the number
    of intervals and the in-flight set as they are. *)
Theorem callback_leaves_other_sessions id j s w :
  id <> j ->
  intervals (memory (run world (callback id) s w)) !! j = intervals s !! j
  /\ length (intervals (memory (run world (callback id) s w))) = length (intervals s)
  /\ processingMessages (memory (run world (callback id) s w)) = processingMessages s.
Proof.
  intros Hne. split; [|split; [apply fire_keeps_length|apply fire_keeps_set]].
  unfold fire, tick, poll_state. cbn.
  destruct (intervals s !! id) as [iv|] eqn:E; [|done].
  exec.
  all: repeat (rewrite ?lookup_update_interval_ne by done; cbn); done.
Qed.

(** What one call costs a running session: one poll is counted, and the
    session is cleared or still within its budget; a state query is only
    sent at the expense of the budget that is left. *)
Lemma callback_step id s w iv :
  intervals s !! id = Some iv ->
  cleared iv = false ->
  (polls iv <= maxPolls)%nat ->
  exists iv1,
    intervals (memory (run world (callback id) s w)) !! id = Some iv1
    /\ polls iv1 = S (polls iv)
    /\ (cleared iv1 = true \/ (polls iv1 <= maxPolls)%nat)
    /\ (count is_state_query (trace (run world (callback id) s w))
        + (if cleared iv1 then 0 else maxPolls - polls iv1)
        <= maxPolls - polls iv)%nat.
Proof.
  intros E Hc Hp. unfold fire, tick, poll_state. cbn. rewrite E, Hc. cbn.
  rewrite lookup_update_interval, E. cbn.
  exec.
  all: repeat (rewrite ?lookup_update_interval, ?E; cbn).
  all: eexists; split; [reflexivity|]; cbn.
  all: rewrite ?count_cons, ?count_nil; cbn.
  all: nat_facts; rewrite ?Hc; (split; [done|]).
  all: split; [first [by left | right; lia]|lia].
Qed.

Lemma ticks_budget n id : forall s w iv,
  intervals s !! id = Some iv ->
  cleared iv = true \/ (polls iv <= maxPolls)%nat ->
  exists iv',
    intervals (memory (run_ticks formatError config world n id s w)) !! id = Some iv'
    /\ (cleared iv' = true
        \/ (polls iv' = polls iv + n /\ polls iv' <= maxPolls)%nat)
    /\ (count is_state_query (trace (run_ticks formatError config world n id s w))
        <= (if cleared iv then 0 else maxPolls - polls iv))%nat.
Proof.
  induction n as [|n IH]; intros s w iv E Hq.
  - exists iv. split; [done|]. rewrite count_nil. split; [|lia].
    destruct Hq as [?|?]; [by left|right; lia].
  - destruct (cleared iv) eqn:Hc.
    + rewrite run_ticks_idle by (intros iv0 E0; congruence).
      exists iv. split; [done|]. rewrite count_nil. split; [by left|lia].
    + destruct Hq as [?|Hp]; [done|].
      destruct (callback_step id s w iv E Hc Hp) as (iv1 & E1 & Hp1 & Hq1 & Hb1).
      destruct (IH (memory (run world (callback id) s w))
                   (outside (run world (callback id) s w)) iv1 E1 Hq1)
        as (iv' & E' & Hq' & Hb').
      cbn [run_ticks memory trace]. rewrite count_app.
      exists iv'. split; [exact E'|]. split; [|lia].
      destruct Hq' as [?|[Hpn Hle]]; [by left|right; lia].
Qed.

(** A session cannot outlive its budget: whatever Slack and the Continue
    API answer, a new interval has been cleared once the callback has been
    due more than [maxPolls] times, and it has sent at most [maxPolls]
    state queries however long the timer runs. *)
Theorem session_ends_within_budget n id s w iv :
  intervals s !! id = Some iv ->
  polls iv = O ->
  cleared iv = false ->
  (count is_state_query (trace (run_ticks formatError config world n id s w))
   <= maxPolls)%nat
  /\ ((maxPolls < n)%nat ->
      exists iv',
        intervals (memory (run_ticks formatError config world n id s w)) !! id
        = Some iv'
        /\ cleared iv' = true).
Proof.
  intros E Hp Hc.
  destruct (ticks_budget n id s w iv E) as (iv' & E' & Hq' & Hb'); [right; lia|].
  rewrite Hc in Hb'. split; [lia|].
  intros Hn. exists iv'. split; [exact E'|].
  destruct Hq' as [?|[Hpn Hle]]; [done|lia].
Qed.

End TickMore.

(** ** The HTTP entry point *)

Section WebhookFacts.

Variable hmac : string -> string -> string.
Variable formatError : JsError -> string.
Variable new_RegExp : string -> completion RegExp.
Variable JSON_stringify : SlackWebhookPayload -> string.
Variable W : Type.
Variable world : forall c : call, W -> resp c * W.

Abbreviation webhook := (handleSlackWebhook hmac formatError JSON_stringify).
Abbreviation verify := (verifySlackSignature hmac).

Ltac open_webhook :=
  unfold handleSlackWebhook, web_try_catch, web_bind, web_completion,
    res_send, logger_warn, no_exchange.

(** The asynchronous phase: the handler runs, and an exception it throws
    is logged and goes no further. *)
Lemma run_guarded_handler (p : prog unit) (m : JsError -> string) (x : Exchange) s w :
  run world
    (web_try_catch (web_lift p) (fun e => web_lift (logger_error (m e))) x) s w
  = {| completed := Returned (Returned tt, x);
       memory :=
         match completed (run world p s w) with
         | Returned _ => memory (run world p s w)
         | Threw e =>
             with_logs (fun l => (l ++ [(Err, m e)])%list) (memory (run world p s w))
         end;
       outside := outside (run world p s w);
       trace := trace (run world p s w) |}.
Proof.
  unfold web_try_catch. rewrite run_bind, run_web_lift. cbn.
  destruct (completed (run world p s w)) as [[]|e]; cbn; by rewrite app_nil_r.
Qed.

(** The part of [handleSlackWebhook] that follows a signature found
    valid. *)
Lemma run_webhook_verified now req secret onMessage s w sg t :
  x_slack_signature req = Some sg ->
  x_slack_request_timestamp req = Some t ->
  sg <> "" -> t <> "" ->
  verify now secret sg t (JSON_stringify (req_body req)) = Returned true ->
  run world (webhook now req secret onMessage no_exchange) s w
  = if String.eqb (payload_type (req_body req)) "url_verification"
       && truthy_opt (challenge (req_body req))
    then
      {| completed :=
           Returned (Returned tt,
                     {| replies :=
                          [{| reply_status := 200;
                              reply_body :=
                                JsonChallenge (default "" (challenge (req_body req))) |}];
                        warnings := [] |});
         memory := s; outside := w; trace := [] |}
    else if String.eqb (payload_type (req_body req)) "event_callback"
    then
      {| completed :=
           Returned (Returned tt,
                     {| replies := [{| reply_status := 200; reply_body := NoBody |}];
                        warnings := [] |});
         memory :=
           match completed (run world (onMessage (req_body req)) s w) with
           | Returned _ => memory (run world (onMessage (req_body req)) s w)
           | Threw e =>
               with_logs
                 (fun l => (l ++ [(Err, ("Error processing Slack event: "
                                         ++ formatError e)%string)])%list)
                 (memory (run world (onMessage (req_body req)) s w))
           end;
         outside := outside (run world (onMessage (req_body req)) s w);
         trace := trace (run world (onMessage (req_body req)) s w) |}
    else
      {| completed :=
           Returned (Returned tt,
                     {| replies :=
                          [{| reply_status := 400;
                              reply_body := JsonError "Unknown event type" |}];
                        warnings := [("Unknown Slack event type: "
                                      ++ payload_type (req_body req))%string] |});
         memory := s; outside := w; trace := [] |}.
Proof.
  intros Hsg Ht Hsg0 Ht0 Hv. open_webhook.
  rewrite Hsg, Ht. cbn [truthy_opt default from_option id].
  destruct sg; [done|]. destruct t; [done|]. cbn [JsString.truthy negb orb].
  rewrite Hv. cbn [bind negb].
  destruct (String.eqb (payload_type (req_body req)) "url_verification"
            && truthy_opt (challenge (req_body req))); [done|].
  destruct (String.eqb (payload_type (req_body req)) "event_callback"); [|done].
  cbn [bind app replies warnings].
  rewrite run_bind.
  change (bind (web_lift (onMessage (req_body req)) ?x) _)
    with (web_try_catch (web_lift (onMessage (req_body req)))
            (fun e => web_lift
                        (logger_error
                           ("Error processing Slack event: " ++ formatError e)))
            x).
  rewrite (run_guarded_handler (onMessage (req_body req))
             (fun e => ("Error processing Slack event: " ++ formatError e)%string)).
  cbn. by rewrite app_nil_r.
Qed.

(** The ways in which a request is turned away. *)
Lemma run_webhook_missing now req secret onMessage s w :
  truthy_opt (x_slack_signature req) && truthy_opt (x_slack_request_timestamp req)
  = false ->
  run world (webhook now req secret onMessage no_exchange) s w
  = {| completed :=
         Returned (Returned tt,
                   {| replies := [{| reply_status := 401;
                                     reply_body := JsonError "Unauthorized" |}];
                      warnings := [] |});
       memory :=
         with_logs
           (fun l => (l ++ [(Err, "Missing Slack signature or timestamp")])%list) s;
       outside := w; trace := [] |}.
Proof.
  intros H. open_webhook.
  apply andb_false_iff in H.
  assert (Hc : negb (truthy_opt (x_slack_signature req))
               || negb (truthy_opt (x_slack_request_timestamp req)) = true).
  { destruct H as [->| ->]; [done|apply orb_true_r]. }
  by rewrite Hc.
Qed.

Lemma run_webhook_invalid now req secret onMessage s w sg t :
  x_slack_signature req = Some sg ->
  x_slack_request_timestamp req = Some t ->
  sg <> "" -> t <> "" ->
  verify now secret sg t (JSON_stringify (req_body req)) = Returned false ->
  run world (webhook now req secret onMessage no_exchange) s w
  = {| completed :=
         Returned (Returned tt,
                   {| replies := [{| reply_status := 401;
                                     reply_body := JsonError "Unauthorized" |}];
                      warnings := [] |});
       memory := with_logs (fun l => (l ++ [(Err, "Invalid Slack signature")])%list) s;
       outside := w; trace := [] |}.
Proof.
  intros Hsg Ht Hsg0 Ht0 Hv. open_webhook.
  rewrite Hsg, Ht. cbn [truthy_opt default from_option id].
  destruct sg; [done|]. destruct t; [done|]. cbn [JsString.truthy negb orb].
  by rewrite Hv.
Qed.

Lemma run_webhook_thrown now req secret onMessage s w sg t e :
  x_slack_signature req = Some sg ->
  x_slack_request_timestamp req = Some t ->
  sg <> "" -> t <> "" ->
  verify now secret sg t (JSON_stringify (req_body req)) = Threw e ->
  run world (webhook now req secret onMessage no_exchange) s w
  = {| completed :=
         Returned (Returned tt,
                   {| replies := [{| reply_status := 500;
                                     reply_body := JsonError "Internal server error" |}];
                      warnings := [] |});
       memory :=
         with_logs
           (fun l => (l ++ [(Err, ("Error handling Slack webhook: "
                                   ++ formatError e)%string)])%list) s;
       outside := w; trace := [] |}.
Proof.
  intros Hsg Ht Hsg0 Ht0 Hv. open_webhook.
  rewrite Hsg, Ht. cbn [truthy_opt default from_option id].
  destruct sg; [done|]. destruct t; [done|]. cbn [JsString.truthy negb orb].
  by rewrite Hv.
Qed.

Lemma headers_cases req :
  truthy_opt (x_slack_signature req) && truthy_opt (x_slack_request_timestamp req)
  = false
  \/ exists sg t,
       x_slack_signature req = Some sg /\ x_slack_request_timestamp req = Some t
       /\ sg <> "" /\ t <> "".
Proof.
  destruct (x_slack_signature req) as [[|a sg]|]; [by left..| |by left].
  destruct (x_slack_request_timestamp req) as [[|b t]|]; [by left| |by left].
  right. by eexists _, _.
Qed.

(** Every request gets exactly one response, and [handleSlackWebhook]
    never throws, whatever the headers, the body, the clock and the
    handler are, even when the handler throws. *)
Theorem webhook_responds_exactly_once now req secret onMessage s w :
  exists reply warned,
    completed (run world (webhook now req secret onMessage no_exchange) s w)
    = Returned (Returned tt, {| replies := [reply]; warnings := warned |}).
Proof.
  destruct (headers_cases req) as [H|(sg & t & Hsg & Ht & Hsg0 & Ht0)].
  - rewrite run_webhook_missing by done. by eexists _, _.
  - destruct (verify now secret sg t (JSON_stringify (req_body req)))
      as [[]|e] eqn:Hv.
    + rewrite (run_webhook_verified now req secret onMessage s w sg t) by done.
      destruct (_ && _); [by eexists _, _|].
      destruct (String.eqb _ _); by eexists _, _.
    + rewrite (run_webhook_invalid now req secret onMessage s w sg t) by done.
      by eexists _, _.
    + rewrite (run_webhook_thrown now req secret onMessage s w sg t e) by done.
      by eexists _, _.
Qed.

(** A request without a signature or without a timestamp (missing or
    empty) is answered with 401; the signature is not checked and the
    handler is not called. *)
Theorem missing_header_unauthorized now req secret onMessage s w :
  truthy_opt (x_slack_signature req) = false
  \/ truthy_opt (x_slack_request_timestamp req) = false ->
  run world (webhook now req secret onMessage no_exchange) s w
  = {| completed :=
         Returned (Returned tt,
                   {| replies := [{| reply_status := 401;
                                     reply_body := JsonError "Unauthorized" |}];
                      warnings := [] |});
       memory :=
         with_logs
           (fun l => (l ++ [(Err, "Missing Slack signature or timestamp")])%list) s;
       outside := w; trace := [] |}.
Proof.
  intros H. apply run_webhook_missing. apply andb_false_iff. exact H.
Qed.

(** A request whose timestamp lies more than 300 seconds from now is
    answered with 401 whatever its signature is, and the handler is not
    called. *)
Theorem stale_request_unauthorized now req secret onMessage s w sg t n :
  x_slack_signature req = Some sg ->
  x_slack_request_timestamp req = Some t ->
  sg <> "" ->
  JsString.parseInt t = Num n ->
  300 < Z.abs (now / 1000 - n) ->
  run world (webhook now req secret onMessage no_exchange) s w
  = {| completed :=
         Returned (Returned tt,
                   {| replies := [{| reply_status := 401;
                                     reply_body := JsonError "Unauthorized" |}];
                      warnings := [] |});
       memory := with_logs (fun l => (l ++ [(Err, "Invalid Slack signature")])%list) s;
       outside := w; trace := [] |}.
Proof.
  intros Hsg Ht Hsg0 Hp Hold.
  apply (run_webhook_invalid now req secret onMessage s w sg t); try done.
  - intros ->. discriminate Hp.
  - unfold verifySlackSignature. rewrite Hp. cbn.
    by apply Z.ltb_lt in Hold as ->.
Qed.

(** A signature whose length differs from that of the expected one makes
    the comparison throw; when the timestamp is fresh or does not parse,
    the request is answered with 500, not with 401.  The handler is not
    called. *)
Theorem wrong_length_signature_is_server_error now req secret onMessage s w sg t :
  x_slack_signature req = Some sg ->
  x_slack_request_timestamp req = Some t ->
  sg <> "" -> t <> "" ->
  (JsString.parseInt t = NaN
   \/ exists n, JsString.parseInt t = Num n /\ Z.abs (now / 1000 - n) <= 300) ->
  String.length sg
  <> String.length (mySignature hmac secret t (JSON_stringify (req_body req))) ->
  replies_of (completed (run world (webhook now req secret onMessage no_exchange) s w))
  = [{| reply_status := 500; reply_body := JsonError "Internal server error" |}]
  /\ trace (run world (webhook now req secret onMessage no_exchange) s w) = []
  /\ processingMessages
       (memory (run world (webhook now req secret onMessage no_exchange) s w))
     = processingMessages s
  /\ intervals (memory (run world (webhook now req secret onMessage no_exchange) s w))
     = intervals s.
Proof.
  intros Hsg Ht Hsg0 Ht0 Hfresh Hlen.
  assert (Hv : verify now secret sg t (JSON_stringify (req_body req))
               = Threw (Error "Input buffers must have the same byte length")).
  { unfold verifySlackSignature, timingSafeEqual.
    assert (Hgt : js_gt (Math_abs (js_sub (Math_floor_div now 1000)
                                     (JsString.parseInt t))) (Num 300) = false).
    { destruct Hfresh as [->|(n & -> & Hle)]; [done|]. cbn. by apply Z.ltb_ge. }
    rewrite Hgt.
    destruct (Nat.eqb_spec
                (String.length (mySignature hmac secret t (JSON_stringify (req_body req))))
                (String.length sg)); [congruence|done]. }
  by rewrite (run_webhook_thrown now req secret onMessage s w sg t _ Hsg Ht Hsg0 Ht0 Hv).
Qed.

(** A verified event callback is answered with 200 and then handed to
    the handler; what the handler sends and where it leaves the world is
    what the request does.  An exception thrown by the handler is logged
    and changes neither the response nor anything else. *)
Theorem verified_event_runs_handler now req secret onMessage s w sg t :
  x_slack_signature req = Some sg ->
  x_slack_request_timestamp req = Some t ->
  sg <> "" -> t <> "" ->
  verify now secret sg t (JSON_stringify (req_body req)) = Returned true ->
  payload_type (req_body req) = "event_callback" ->
  completed (run world (webhook now req secret onMessage no_exchange) s w)
  = Returned (Returned tt,
              {| replies := [{| reply_status := 200; reply_body := NoBody |}];
                 warnings := [] |})
  /\ trace (run world (webhook now req secret onMessage no_exchange) s w)
     = trace (run world (onMessage (req_body req)) s w)
  /\ outside (run world (webhook now req secret onMessage no_exchange) s w)
     = outside (run world (onMessage (req_body req)) s w)
  /\ memory (run world (webhook now req secret onMessage no_exchange) s w)
     = match completed (run world (onMessage (req_body req)) s w) with
       | Returned _ => memory (run world (onMessage (req_body req)) s w)
       | Threw e =>
           with_logs
             (fun l => (l ++ [(Err, ("Error processing Slack event: "
                                     ++ formatError e)%string)])%list)
             (memory (run world (onMessage (req_body req)) s w))
       end.
Proof.
  intros Hsg Ht Hsg0 Ht0 Hv Hty.
  rewrite (run_webhook_verified now req secret onMessage s w sg t) by done.
  by rewrite Hty.
Qed.

(** The URL verification handshake: a verified request of type
    [url_verification] that carries a challenge gets the challenge back
    with status 200; the handler is not called and nothing is logged. *)
Theorem challenge_echoed now req secret onMessage s w sg t c :
  x_slack_signature req = Some sg ->
  x_slack_request_timestamp req = Some t ->
  sg <> "" -> t <> "" ->
  verify now secret sg t (JSON_stringify (req_body req)) = Returned true ->
  payload_type (req_body req) = "url_verification" ->
  challenge (req_body req) = Some c ->
  c <> "" ->
  run world (webhook now req secret onMessage no_exchange) s w
  = {| completed :=
         Returned (Returned tt,
                   {| replies := [{| reply_status := 200;
                                     reply_body := JsonChallenge c |}];
                      warnings := [] |});
       memory := s; outside := w; trace := [] |}.
Proof.
  intros Hsg Ht Hsg0 Ht0 Hv Hty Hc Hc0.
  rewrite (run_webhook_verified now req secret onMessage s w sg t) by done.
  rewrite Hty, Hc. by destruct c.
Qed.

(** A verified request that is neither an event callback nor a handshake
    with a challenge is answered with 400 and a warning; this includes a
    [url_verification] request whose challenge is missing or empty.  The
    handler is not called. *)
Theorem unknown_type_bad_request now req secret onMessage s w sg t :
  x_slack_signature req = Some sg ->
  x_slack_request_timestamp req = Some t ->
  sg <> "" -> t <> "" ->
  verify now secret sg t (JSON_stringify (req_body req)) = Returned true ->
  payload_type (req_body req) <> "event_callback" ->
  payload_type (req_body req) <> "url_verification"
  \/ truthy_opt (challenge (req_body req)) = false ->
  run world (webhook now req secret onMessage no_exchange) s w
  = {| completed :=
         Returned (Returned tt,
                   {| replies := [{| reply_status := 400;
                                     reply_body := JsonError "Unknown event type" |}];
                      warnings := [("Unknown Slack event type: "
                                    ++ payload_type (req_body req))%string] |});
       memory := s; outside := w; trace := [] |}.
Proof.
  intros Hsg Ht Hsg0 Ht0 Hv Hty Hch.
  rewrite (run_webhook_verified now req secret onMessage s w sg t) by done.
  apply String.eqb_neq in Hty. rewrite Hty.
  destruct Hch as [Hch| ->].
  - apply String.eqb_neq in Hch. by rewrite Hch.
  - by rewrite andb_false_r.
Qed.

(** The handler is called for verified event callbacks only: on every
    other request, what [handleSlackWebhook] does is the same for every
    handler, and nothing is sent. *)
Theorem handler_called_only_when_verified now req secret onMessage onMessage' s w :
  ~ (verify now secret (default "" (x_slack_signature req))
       (default "" (x_slack_request_timestamp req))
       (JSON_stringify (req_body req)) = Returned true
     /\ payload_type (req_body req) = "event_callback") ->
  run world (webhook now req secret onMessage no_exchange) s w
  = run world (webhook now req secret onMessage' no_exchange) s w
  /\ trace (run world (webhook now req secret onMessage no_exchange) s w) = [].
Proof.
  intros Hnot.
  destruct (headers_cases req) as [H|(sg & t & Hsg & Ht & Hsg0 & Ht0)].
  - by rewrite !run_webhook_missing.
  - rewrite Hsg, Ht in Hnot. cbn [default from_option id] in Hnot.
    destruct (verify now secret sg t (JSON_stringify (req_body req)))
      as [[]|e] eqn:Hv.
    + rewrite !(run_webhook_verified now req secret _ s w sg t) by done.
      destruct (_ && _); [done|].
      destruct (String.eqb_spec (payload_type (req_body req)) "event_callback");
        [|done].
      by destruct Hnot.
    + by rewrite !(run_webhook_invalid now req secret _ s w sg t).
    + by rewrite !(run_webhook_thrown now req secret _ s w sg t e).
Qed.

(** The route registered by [setupWebhook]: a verified event callback is
    answered with 200 and sends what [handleEvent] sends.  When
    [handleEvent] returns, the memory is as [handleEvent] leaves it, and
    it returns whenever the mention token compiles; when [handleEvent]
    throws, the error is logged on top of that.  Whatever the request is,
    and also when [handleEvent] throws, the route leaves the in-flight
    set as it found it. *)
Theorem route_runs_handleEvent config now req s w :
  (forall sg t,
      x_slack_signature req = Some sg ->
      x_slack_request_timestamp req = Some t ->
      sg <> "" -> t <> "" ->
      verify now (signingSecret config) sg t (JSON_stringify (req_body req))
      = Returned true ->
      payload_type (req_body req) = "event_callback" ->
      replies_of (completed
                    (run world
                       (setupWebhook hmac formatError new_RegExp JSON_stringify
                          config now req no_exchange) s w))
      = [{| reply_status := 200; reply_body := NoBody |}]
      /\ trace (run world
                  (setupWebhook hmac formatError new_RegExp JSON_stringify
                     config now req no_exchange) s w)
         = trace (run world (handleEvent formatError new_RegExp config (req_body req)) s w)
      /\ memory (run world
                   (setupWebhook hmac formatError new_RegExp JSON_stringify
                      config now req no_exchange) s w)
         = match completed
                   (run world (handleEvent formatError new_RegExp config (req_body req)) s w)
           with
           | Returned _ =>
               memory (run world
                         (handleEvent formatError new_RegExp config (req_body req)) s w)
           | Threw e =>
               with_logs
                 (fun l => (l ++ [(Err, ("Error processing Slack event: "
                                         ++ formatError e)%string)])%list)
                 (memory (run world
                            (handleEvent formatError new_RegExp config (req_body req))
                            s w))
           end
      /\ (forall messageText,
            extractMessageText new_RegExp (text (event (req_body req)))
              (botUserId config) = Returned messageText ->
            memory (run world
                      (setupWebhook hmac formatError new_RegExp JSON_stringify
                         config now req no_exchange) s w)
            = memory (run world
                        (handleEvent formatError new_RegExp config (req_body req)) s w)))
  /\ processingMessages
       (memory (run world
                  (setupWebhook hmac formatError new_RegExp JSON_stringify
                     config now req no_exchange) s w))
     = processingMessages s.
Proof.
  unfold setupWebhook. split.
  - intros sg t Hsg Ht Hsg0 Ht0 Hv Hty.
    rewrite (run_webhook_verified now req _ _ s w sg t) by done.
    rewrite Hty. cbn. split; [done|]. split; [done|]. split; [done|].
    intros messageText He. by rewrite (handleEvent_returns _ _ _ _ _ _ _ _ _ He).
  - destruct (headers_cases req) as [H|(sg & t & Hsg & Ht & Hsg0 & Ht0)].
    + by rewrite run_webhook_missing.
    + destruct (verify now (signingSecret config) sg t (JSON_stringify (req_body req)))
        as [[]|e] eqn:Hv.
      * rewrite (run_webhook_verified now req _ _ s w sg t) by done.
        destruct (_ && _); [done|].
        destruct (String.eqb _ _); [|done].
        cbn.
        destruct (completed _); cbn; apply handleEvent_keeps_set.
      * by rewrite (run_webhook_invalid now req _ _ s w sg t).
      * by rewrite (run_webhook_thrown now req _ _ s w sg t e).
Qed.

End WebhookFacts.

(** ** More on the signature and on the extracted text *)

(** A fresh timestamp with the expected signature verifies. *)
Lemma verify_accepts_fresh (hmac : string -> string -> string)
    now secret sig timestamp body t :
  JsString.parseInt timestamp = Num t ->
  Z.abs (now / 1000 - t) <= 300 /\ sig = mySignature hmac secret timestamp body ->
  verifySlackSignature hmac now secret sig timestamp body = Returned true.
Proof.
  intros Hp [Hle ->]. unfold verifySlackSignature. rewrite Hp. cbn.
  apply Z.ltb_ge in Hle. rewrite Hle. apply timingSafeEqual_refl.
Qed.

(** A signature other than the expected one is never accepted, whatever
    the timestamp and the clock are; when it has the length of the
    expected one, the answer is [false] and nothing is thrown.  This is
    the case of a signature computed with another secret. *)
Theorem wrong_signature_never_accepted
    (hmac : string -> string -> string) now secret sig timestamp body :
  sig <> mySignature hmac secret timestamp body ->
  verifySlackSignature hmac now secret sig timestamp body <> Returned true
  /\ (String.length sig = String.length (mySignature hmac secret timestamp body) ->
      verifySlackSignature hmac now secret sig timestamp body = Returned false).
Proof.
  intros Hne. unfold verifySlackSignature.
  destruct (js_gt _ _); [split; [discriminate|done]|].
  split.
  - rewrite timingSafeEqual_true. congruence.
  - intros Hlen. rewrite timingSafeEqual_same_length by done.
    f_equal. apply String.eqb_neq. congruence.
Qed.

Lemma remove_from_skip (t a b : string) :
  JsString.remove_from (String.length a) t (a ++ b) = JsString.remove_from O t b.
Proof.
  induction a as [|c a IH]; [by rewrite append_nil|].
  rewrite append_cons. exact IH.
Qed.

Lemma removeAll_leading (t b : string) :
  t <> "" -> JsString.removeAll (t ++ b) t = JsString.removeAll b t.
Proof.
  intros Ht. destruct t as [|c t]; [done|].
  unfold JsString.removeAll.
  rewrite append_cons. cbn [JsString.remove_from].
  rewrite <- append_cons, prefix_app.
  cbn [String.length Nat.pred]. apply remove_from_skip.
Qed.

(** For a bot user id without syntax characters, compiled by an engine
    that takes such patterns as they are written, a mention at the start
    of the text is stripped: the text extracted from a mention followed
    by [rest] is the text extracted from [rest]. *)
Theorem extractMessageText_strips_leading_mention new_RegExp (rest botUserId : string) :
  compiles_plain_patterns new_RegExp ->
  plain botUserId = true ->
  extractMessageText new_RegExp (mention botUserId ++ rest) botUserId
  = extractMessageText new_RegExp rest botUserId.
Proof.
  intros Hc Hp. rewrite !extractMessageText_plain by done.
  by rewrite removeAll_leading.
Qed.

(** * The further properties at concrete inputs *)

Lemma verify_rejects_stale_witness :
  JsString.parseInt "1699990000" = Num 1699990000
  /\ 300 < Z.abs (SampleWeb.now / 1000 - 1699990000)
  /\ verifySlackSignature Sample.hmac SampleWeb.now "s3cr3t"
       (mySignature Sample.hmac "s3cr3t" "1699990000" "{}") "1699990000" "{}"
     = Returned false.
Proof.
  assert (H : 300 < Z.abs (SampleWeb.now / 1000 - 1699990000)) by (by vm_compute).
  split; [reflexivity|]. split; [exact H|].
  exact (verify_rejects_stale Sample.hmac SampleWeb.now "s3cr3t" _ "1699990000" "{}"
           1699990000 eq_refl H).
Defined.

Lemma verify_parsed_true_iff_witness :
  JsString.parseInt "1700000000" = Num 1700000000
  /\ verifySlackSignature Sample.hmac SampleWeb.now "s3cr3t"
       (mySignature Sample.hmac "s3cr3t" "1700000000" "{}") "1700000000" "{}"
     = Returned true.
Proof.
  split; [reflexivity|].
  apply (verify_parsed_true_iff Sample.hmac SampleWeb.now "s3cr3t" _ "1700000000" "{}"
           1700000000 eq_refl).
  split; [by vm_compute|reflexivity].
Defined.

Lemma wrong_signature_never_accepted_witness :
  "v0=bad" <> mySignature Sample.hmac "s3cr3t" "1700000000" "{}"
  /\ verifySlackSignature Sample.hmac SampleWeb.now "s3cr3t" "v0=bad" "1700000000" "{}"
     <> Returned true.
Proof.
  assert (H : "v0=bad" <> mySignature Sample.hmac "s3cr3t" "1700000000" "{}")
    by (vm_compute; discriminate).
  split; [exact H|].
  exact (proj1 (wrong_signature_never_accepted Sample.hmac SampleWeb.now "s3cr3t"
                  "v0=bad" "1700000000" "{}" H)).
Defined.

Lemma extractMessageText_without_mention_witness :
  compiles_plain_patterns Sample.new_RegExp
  /\ plain "U1" = true
  /\ isBotMentioned "  run the tests " "U1" = false
  /\ extractMessageText Sample.new_RegExp "  run the tests " "U1"
     = Returned (JsString.trim "  run the tests ").
Proof.
  split; [exact sample_engine_compiles_plain_patterns|].
  split; [reflexivity|]. split; [reflexivity|].
  exact (extractMessageText_without_mention Sample.new_RegExp "  run the tests " "U1"
           sample_engine_compiles_plain_patterns eq_refl eq_refl).
Defined.

Lemma extractMessageText_strips_leading_mention_witness :
  compiles_plain_patterns Sample.new_RegExp
  /\ plain "U1" = true
  /\ extractMessageText Sample.new_RegExp (mention "U1" ++ " hello") "U1"
     = extractMessageText Sample.new_RegExp " hello" "U1".
Proof.
  split; [exact sample_engine_compiles_plain_patterns|].
  split; [reflexivity|].
  exact (extractMessageText_strips_leading_mention Sample.new_RegExp " hello" "U1"
           sample_engine_compiles_plain_patterns eq_refl).
Defined.

Lemma client_failure_is_a_value_witness :
  completed (run (scripted SampleWeb.slack_down)
               (postMessage Sample.formatError "xoxb-1" Sample.ack_message)
               empty_sys tt)
  = Returned {| ok := false; resp_channel := None; ts := None;
                error := Some "socket hang up" |}.
Proof.
  exact (proj1 (client_failure_is_a_value Sample.formatError unit
                  (scripted SampleWeb.slack_down) "xoxb-1" Sample.ack_message
                  empty_sys tt (Rejected (Error "socket hang up")) tt
                  (Error "socket hang up") eq_refl (or_introl eq_refl))).
Defined.

Lemma client_returns_parsed_body_witness :
  completed (run (scripted Sample.busy)
               (postMessage Sample.formatError "xoxb-1" Sample.ack_message)
               empty_sys tt)
  = Returned {| ok := true; resp_channel := Some "C1";
                ts := Some "1700000001.000200"; error := None |}.
Proof.
  exact (proj1 (client_returns_parsed_body Sample.formatError unit
                  (scripted Sample.busy) "xoxb-1" Sample.ack_message
                  empty_sys tt true 200 _ tt eq_refl)).
Defined.

Lemma handleEvent_ignores_foreign_events_witness :
  type (event SampleWeb.reaction) <> "message"
  /\ run (scripted Sample.busy)
       (handleEvent Sample.formatError Sample.new_RegExp Sample.config SampleWeb.reaction) empty_sys tt
     = {| completed := Returned tt; memory := empty_sys; outside := tt; trace := [] |}.
Proof.
  assert (H : type (event SampleWeb.reaction) <> "message") by discriminate.
  split; [exact H|].
  exact (handleEvent_ignores_foreign_events Sample.formatError Sample.new_RegExp
           Sample.config unit
           (scripted Sample.busy) SampleWeb.reaction empty_sys tt (or_introl H)).
Defined.

Lemma unmentioned_channel_message_not_forwarded_witness :
  isDirectMessage (event SampleWeb.channel_chatter) = false
  /\ isBotMentioned (text (event SampleWeb.channel_chatter)) "U1" = false
  /\ trace (run (scripted Sample.busy)
              (handleEvent Sample.formatError Sample.new_RegExp Sample.config SampleWeb.channel_chatter)
              empty_sys tt) = [].
Proof.
  split; [reflexivity|]. split; [reflexivity|].
  exact (proj1 (unmentioned_channel_message_not_forwarded Sample.formatError
                  Sample.new_RegExp Sample.config unit (scripted Sample.busy)
                  SampleWeb.channel_chatter empty_sys tt eq_refl eq_refl)).
Defined.

Lemma direct_message_forwarded_trimmed_witness :
  compiles_plain_patterns Sample.new_RegExp
  /\ plain (botUserId Sample.config) = true
  /\ isDirectMessage (event SampleWeb.direct_message) = true
  /\ isBotMentioned (text (event SampleWeb.direct_message)) "U1" = false
  /\ exists rest,
       trace (run (scripted Sample.busy)
                (handleEvent Sample.formatError Sample.new_RegExp Sample.config SampleWeb.direct_message)
                empty_sys tt)
       = SlackPostMessage "xoxb-1"
           {| msg_channel := "D1"; msg_text := processing_text; thread_ts := None |}
         :: ContinueMessage "http://localhost:8000/message"
              (JsString.trim "  run the tests ")
         :: rest.
Proof.
  split; [exact sample_engine_compiles_plain_patterns|].
  split; [reflexivity|]. split; [reflexivity|]. split; [reflexivity|].
  assert (Hk : messageId (event SampleWeb.direct_message) ∉ processingMessages empty_sys)
    by apply not_elem_of_empty.
  assert (Hu : user (event SampleWeb.direct_message) <> botUserId Sample.config)
    by discriminate.
  assert (Ht : JsString.trim (text (event SampleWeb.direct_message)) <> "")
    by (vm_compute; discriminate).
  exact (direct_message_forwarded_trimmed Sample.formatError Sample.new_RegExp
           Sample.config unit
           (scripted Sample.busy) SampleWeb.direct_message empty_sys tt
           (slack_ok "1700000001.000200") tt "1700000001.000200"
           sample_engine_compiles_plain_patterns eq_refl
           eq_refl Hu Hk eq_refl eq_refl Ht eq_refl eq_refl).
Defined.

Lemma failed_acknowledgement_stops_witness :
  extractMessageText Sample.new_RegExp "<@U1> hello" "U1" = Returned "hello"
  /\ acknowledged (slack_answer SampleWeb.slack_down) = None
  /\ trace (run (scripted SampleWeb.slack_down)
              (handleEvent Sample.formatError Sample.new_RegExp Sample.config
                 (Sample.payload "<@U1> hello")) empty_sys tt)
     = [SlackPostMessage "xoxb-1" Sample.ack_message].
Proof.
  split; [reflexivity|]. split; [reflexivity|].
  assert (Hp : processable Sample.config (event (Sample.payload "<@U1> hello")))
    by (apply sample_processable; reflexivity).
  assert (Hk : messageId (event (Sample.payload "<@U1> hello"))
               ∉ processingMessages empty_sys) by apply not_elem_of_empty.
  assert (He : extractMessageText Sample.new_RegExp
                 (text (event (Sample.payload "<@U1> hello")))
                 (botUserId Sample.config) = Returned "hello") by reflexivity.
  assert (Hm : "hello" <> "") by discriminate.
  exact (proj1 (failed_acknowledgement_stops Sample.formatError Sample.new_RegExp
                  Sample.config unit
                  (scripted SampleWeb.slack_down) (Sample.payload "<@U1> hello")
                  empty_sys tt "hello" (slack_answer SampleWeb.slack_down) tt
                  Hp Hk He Hm eq_refl eq_refl)).
Defined.

Lemma accepted_submission_starts_polling_witness :
  extractMessageText Sample.new_RegExp "<@U1> hello" "U1" = Returned "hello"
  /\ submission_error (message_answer Sample.busy) = None
  /\ intervals (memory (run (scripted Sample.busy)
                          (handleEvent Sample.formatError Sample.new_RegExp Sample.config
                             (Sample.payload "<@U1> hello")) empty_sys tt))
     = [Sample.session].
Proof.
  split; [reflexivity|]. split; [reflexivity|].
  assert (Hp : processable Sample.config (event (Sample.payload "<@U1> hello")))
    by (apply sample_processable; reflexivity).
  assert (Hk : messageId (event (Sample.payload "<@U1> hello"))
               ∉ processingMessages empty_sys) by apply not_elem_of_empty.
  assert (He : extractMessageText Sample.new_RegExp
                 (text (event (Sample.payload "<@U1> hello")))
                 (botUserId Sample.config) = Returned "hello") by reflexivity.
  assert (Hm : "hello" <> "") by discriminate.
  exact (proj1 (proj2 (accepted_submission_starts_polling Sample.formatError
                         Sample.new_RegExp Sample.config unit (scripted Sample.busy)
                         (Sample.payload "<@U1> hello") empty_sys tt "hello"
                         (slack_ok "1700000001.000200") tt "1700000001.000200"
                         (message_answer Sample.busy) tt
                         Hp Hk He Hm eq_refl eq_refl eq_refl eq_refl))).
Defined.

Lemma failed_query_ends_session_witness :
  query_error (state_answer SampleWeb.api_down) = Some (api_error 503)
  /\ trace (run (scripted SampleWeb.api_down)
              (fire Sample.formatError Sample.config 0) Sample.polling tt)
     = [ContinueGet "http://localhost:8000/state";
        SlackUpdate "xoxb-1" "C1" "1700000001.000200"
          "❌ Error getting results: Continue API returned 503"].
Proof.
  split; [reflexivity|].
  assert (Hp : (polls Sample.session < maxPolls)%nat) by (unfold maxPolls; cbn; lia).
  exact (proj1 (failed_query_ends_session Sample.formatError Sample.config unit
                  (scripted SampleWeb.api_down) 0 Sample.polling tt Sample.session
                  (state_answer SampleWeb.api_down) tt (api_error 503)
                  eq_refl eq_refl Hp eq_refl eq_refl)).
Defined.

Lemma final_answer_relayed_once_witness :
  assistant_content [user_entry "hello"; assistant_entry "42"] = Some "42"
  /\ trace (run (scripted SampleWeb.answered)
              (fire Sample.formatError Sample.config 0) Sample.polling tt)
     = [ContinueGet "http://localhost:8000/state";
        SlackUpdate "xoxb-1" "C1" "1700000001.000200" (complete_text "42")].
Proof.
  split; [reflexivity|].
  assert (Hp : (polls Sample.session < maxPolls)%nat) by (unfold maxPolls; cbn; lia).
  assert (Hl : (lastMessageCount Sample.session
                < length [user_entry "hello"; assistant_entry "42"])%nat)
    by (cbn; lia).
  assert (Ht : JsString.trim "42" <> "") by (vm_compute; discriminate).
  exact (proj1 (final_answer_relayed_once Sample.formatError Sample.config unit
                  (scripted SampleWeb.answered) 0 Sample.polling tt Sample.session
                  (state_answer SampleWeb.answered) tt _ _ "42"
                  eq_refl eq_refl Hp eq_refl eq_refl eq_refl Hl eq_refl Ht
                  eq_refl eq_refl)).
Defined.

Lemma finished_without_history_gets_notice_witness :
  reported (state_answer SampleWeb.finished_empty) = Some (Sample.state None false)
  /\ trace (run (scripted SampleWeb.finished_empty)
              (fire Sample.formatError Sample.config 0) Sample.polling tt)
     = [ContinueGet "http://localhost:8000/state";
        SlackUpdate "xoxb-1" "C1" "1700000001.000200" processing_complete_text].
Proof.
  split; [reflexivity|].
  assert (Hp : (polls Sample.session < maxPolls)%nat) by (unfold maxPolls; cbn; lia).
  exact (proj1 (finished_without_history_gets_notice Sample.formatError Sample.config
                  unit (scripted SampleWeb.finished_empty) 0 Sample.polling tt
                  Sample.session (state_answer SampleWeb.finished_empty) tt _
                  eq_refl eq_refl Hp eq_refl eq_refl eq_refl (or_introl eq_refl)
                  eq_refl eq_refl)).
Defined.

Lemma callback_requests_witness :
  intervals Sample.polling !! O = Some Sample.session
  /\ (count is_relay
        (trace (run (scripted SampleWeb.answered)
                  (fire Sample.formatError Sample.config 0) Sample.polling tt))
      <= 1)%nat.
Proof.
  split; [reflexivity|].
  exact (proj1 (proj2 (callback_requests Sample.formatError Sample.config unit
                         (scripted SampleWeb.answered) 0 Sample.polling tt
                         Sample.session eq_refl))).
Defined.

Lemma callback_leaves_other_sessions_witness :
  O <> 1%nat
  /\ intervals (memory (run (scripted SampleWeb.answered)
                          (fire Sample.formatError Sample.config 0)
                          SampleWeb.two_sessions tt)) !! 1%nat
     = Some SampleWeb.other_session.
Proof.
  assert (H : O <> 1%nat) by discriminate.
  split; [exact H|].
  exact (proj1 (callback_leaves_other_sessions Sample.formatError Sample.config unit
                  (scripted SampleWeb.answered) 0 1 SampleWeb.two_sessions tt H)).
Defined.

Lemma session_ends_within_budget_witness :
  polls Sample.session = O
  /\ (count is_state_query
        (trace (run_ticks Sample.formatError Sample.config (scripted Sample.busy)
                  400 0 Sample.polling tt))
      <= maxPolls)%nat.
Proof.
  split; [reflexivity|].
  exact (proj1 (session_ends_within_budget Sample.formatError Sample.config unit
                  (scripted Sample.busy) 400 0 Sample.polling tt Sample.session
                  eq_refl eq_refl eq_refl)).
Defined.

Lemma missing_header_unauthorized_witness :
  truthy_opt (x_slack_signature
                (SampleWeb.unsigned (SampleWeb.body "event_callback" None))) = false
  /\ replies_of
       (completed
          (run (scripted Sample.busy)
             (handleSlackWebhook Sample.hmac Sample.formatError SampleWeb.stringify
                SampleWeb.now (SampleWeb.unsigned (SampleWeb.body "event_callback" None))
                "s3cr3t" (handleEvent Sample.formatError Sample.new_RegExp Sample.config) no_exchange)
             empty_sys tt))
     = [{| reply_status := 401; reply_body := JsonError "Unauthorized" |}].
Proof.
  split; [reflexivity|].
  by rewrite (missing_header_unauthorized Sample.hmac Sample.formatError
                SampleWeb.stringify unit (scripted Sample.busy) SampleWeb.now
                (SampleWeb.unsigned (SampleWeb.body "event_callback" None))
                "s3cr3t" (handleEvent Sample.formatError Sample.new_RegExp Sample.config)
                empty_sys tt (or_introl eq_refl)).
Defined.

Lemma stale_request_unauthorized_witness :
  300 < Z.abs (SampleWeb.now / 1000 - 1699990000)
  /\ replies_of
       (completed
          (run (scripted Sample.busy)
             (handleSlackWebhook Sample.hmac Sample.formatError SampleWeb.stringify
                SampleWeb.now
                (SampleWeb.signed "1699990000" (SampleWeb.body "event_callback" None))
                "s3cr3t" (handleEvent Sample.formatError Sample.new_RegExp Sample.config) no_exchange)
             empty_sys tt))
     = [{| reply_status := 401; reply_body := JsonError "Unauthorized" |}].
Proof.
  assert (H : 300 < Z.abs (SampleWeb.now / 1000 - 1699990000)) by (by vm_compute).
  split; [exact H|].
  assert (Hs : mySignature Sample.hmac "s3cr3t" "1699990000"
                 (SampleWeb.stringify (SampleWeb.body "event_callback" None)) <> "")
    by (vm_compute; discriminate).
  by rewrite (stale_request_unauthorized Sample.hmac Sample.formatError
                SampleWeb.stringify unit (scripted Sample.busy) SampleWeb.now
                (SampleWeb.signed "1699990000" (SampleWeb.body "event_callback" None))
                "s3cr3t" (handleEvent Sample.formatError Sample.new_RegExp Sample.config)
                empty_sys tt _ "1699990000" 1699990000 eq_refl eq_refl Hs eq_refl H).
Defined.

Lemma wrong_length_signature_is_server_error_witness :
  String.length "v0=bad"
  <> String.length
       (mySignature Sample.hmac "s3cr3t" "1700000000"
          (SampleWeb.stringify (SampleWeb.body "event_callback" None)))
  /\ replies_of
       (completed
          (run (scripted Sample.busy)
             (handleSlackWebhook Sample.hmac Sample.formatError SampleWeb.stringify
                SampleWeb.now
                (SampleWeb.badly_signed "1700000000"
                   (SampleWeb.body "event_callback" None))
                "s3cr3t" (handleEvent Sample.formatError Sample.new_RegExp Sample.config) no_exchange)
             empty_sys tt))
     = [{| reply_status := 500; reply_body := JsonError "Internal server error" |}].
Proof.
  assert (Hl : String.length "v0=bad"
               <> String.length
                    (mySignature Sample.hmac "s3cr3t" "1700000000"
                       (SampleWeb.stringify (SampleWeb.body "event_callback" None))))
    by (vm_compute; discriminate).
  split; [exact Hl|].
  assert (Hf : JsString.parseInt "1700000000" = NaN
               \/ exists n, JsString.parseInt "1700000000" = Num n
                            /\ Z.abs (SampleWeb.now / 1000 - n) <= 300).
  { right. exists 1700000000. split; [reflexivity|by vm_compute]. }
  assert (H1 : "v0=bad" <> "") by discriminate.
  assert (H2 : "1700000000" <> "") by discriminate.
  exact (proj1 (wrong_length_signature_is_server_error Sample.hmac Sample.formatError
                  SampleWeb.stringify unit (scripted Sample.busy) SampleWeb.now
                  (SampleWeb.badly_signed "1700000000"
                     (SampleWeb.body "event_callback" None))
                  "s3cr3t" (handleEvent Sample.formatError Sample.new_RegExp Sample.config)
                  empty_sys tt "v0=bad" "1700000000" eq_refl eq_refl H1 H2 Hf Hl)).
Defined.

Lemma sample_signature_nonempty (t : string) (p : SlackWebhookPayload) :
  mySignature Sample.hmac "s3cr3t" t (SampleWeb.stringify p) <> "".
Proof. discriminate. Defined.

Lemma sample_signature_verifies (p : SlackWebhookPayload) :
  verifySlackSignature Sample.hmac SampleWeb.now "s3cr3t"
    (mySignature Sample.hmac "s3cr3t" "1700000000" (SampleWeb.stringify p))
    "1700000000" (SampleWeb.stringify p)
  = Returned true.
Proof.
  apply (verify_accepts_fresh Sample.hmac SampleWeb.now "s3cr3t" _ "1700000000"
           (SampleWeb.stringify p) 1700000000 eq_refl).
  split; [by vm_compute|reflexivity].
Defined.

Lemma verified_event_runs_handler_witness :
  payload_type (SampleWeb.body "event_callback" None) = "event_callback"
  /\ trace (run (scripted Sample.busy)
              (handleSlackWebhook Sample.hmac Sample.formatError SampleWeb.stringify
                 SampleWeb.now
                 (SampleWeb.signed "1700000000" (SampleWeb.body "event_callback" None))
                 "s3cr3t" (handleEvent Sample.formatError Sample.new_RegExp Sample.config) no_exchange)
              empty_sys tt)
     = trace (run (scripted Sample.busy)
                (handleEvent Sample.formatError Sample.new_RegExp Sample.config
                   (SampleWeb.body "event_callback" None)) empty_sys tt).
Proof.
  split; [reflexivity|].
  assert (H2 : "1700000000" <> "") by discriminate.
  exact (proj1 (proj2 (verified_event_runs_handler Sample.hmac Sample.formatError
                         SampleWeb.stringify unit (scripted Sample.busy) SampleWeb.now
                         (SampleWeb.signed "1700000000"
                            (SampleWeb.body "event_callback" None))
                         "s3cr3t" (handleEvent Sample.formatError Sample.new_RegExp Sample.config)
                         empty_sys tt _ "1700000000" eq_refl eq_refl
                         (sample_signature_nonempty _ _) H2
                         (sample_signature_verifies _) eq_refl))).
Defined.

Lemma challenge_echoed_witness :
  challenge (SampleWeb.body "url_verification" (Some "3eZbrw1a")) = Some "3eZbrw1a"
  /\ replies_of
       (completed
          (run (scripted Sample.busy)
             (handleSlackWebhook Sample.hmac Sample.formatError SampleWeb.stringify
                SampleWeb.now
                (SampleWeb.signed "1700000000"
                   (SampleWeb.body "url_verification" (Some "3eZbrw1a")))
                "s3cr3t" (handleEvent Sample.formatError Sample.new_RegExp Sample.config) no_exchange)
             empty_sys tt))
     = [{| reply_status := 200; reply_body := JsonChallenge "3eZbrw1a" |}].
Proof.
  split; [reflexivity|].
  assert (H2 : "1700000000" <> "") by discriminate.
  assert (H3 : "3eZbrw1a" <> "") by discriminate.
  by rewrite (challenge_echoed Sample.hmac Sample.formatError SampleWeb.stringify
                unit (scripted Sample.busy) SampleWeb.now
                (SampleWeb.signed "1700000000"
                   (SampleWeb.body "url_verification" (Some "3eZbrw1a")))
                "s3cr3t" (handleEvent Sample.formatError Sample.new_RegExp Sample.config)
                empty_sys tt _ "1700000000" "3eZbrw1a" eq_refl eq_refl
                (sample_signature_nonempty _ _) H2
                (sample_signature_verifies _) eq_refl eq_refl H3).
Defined.

Lemma unknown_type_bad_request_witness :
  truthy_opt (challenge (SampleWeb.body "url_verification" None)) = false
  /\ replies_of
       (completed
          (run (scripted Sample.busy)
             (handleSlackWebhook Sample.hmac Sample.formatError SampleWeb.stringify
                SampleWeb.now
                (SampleWeb.signed "1700000000" (SampleWeb.body "url_verification" None))
                "s3cr3t" (handleEvent Sample.formatError Sample.new_RegExp Sample.config) no_exchange)
             empty_sys tt))
     = [{| reply_status := 400; reply_body := JsonError "Unknown event type" |}].
Proof.
  split; [reflexivity|].
  assert (H2 : "1700000000" <> "") by discriminate.
  assert (H3 : payload_type (SampleWeb.body "url_verification" None) <> "event_callback")
    by discriminate.
  by rewrite (unknown_type_bad_request Sample.hmac Sample.formatError
                SampleWeb.stringify unit (scripted Sample.busy) SampleWeb.now
                (SampleWeb.signed "1700000000" (SampleWeb.body "url_verification" None))
                "s3cr3t" (handleEvent Sample.formatError Sample.new_RegExp Sample.config)
                empty_sys tt _ "1700000000" eq_refl eq_refl
                (sample_signature_nonempty _ _) H2
                (sample_signature_verifies _) H3 (or_intror eq_refl)).
Defined.

Lemma handler_called_only_when_verified_witness :
  payload_type (SampleWeb.body "app_rate_limited" None) <> "event_callback"
  /\ trace (run (scripted Sample.busy)
              (handleSlackWebhook Sample.hmac Sample.formatError SampleWeb.stringify
                 SampleWeb.now
                 (SampleWeb.signed "1700000000" (SampleWeb.body "app_rate_limited" None))
                 "s3cr3t" (handleEvent Sample.formatError Sample.new_RegExp Sample.config) no_exchange)
              empty_sys tt) = [].
Proof.
  assert (H : payload_type (SampleWeb.body "app_rate_limited" None) <> "event_callback")
    by discriminate.
  split; [exact H|].
  refine (proj2 (handler_called_only_when_verified Sample.hmac Sample.formatError
                   SampleWeb.stringify unit (scripted Sample.busy) SampleWeb.now
                   (SampleWeb.signed "1700000000"
                      (SampleWeb.body "app_rate_limited" None))
                   "s3cr3t" (handleEvent Sample.formatError Sample.new_RegExp Sample.config)
                   (fun _ => Ret tt) empty_sys tt _)).
  intros [_ H']. exact (H H').
Defined.

Lemma route_runs_handleEvent_witness :
  completed (run (scripted Sample.busy)
               (handleEvent Sample.formatError Sample.new_RegExp Sample.unclosed
                  (Sample.payload "<@U(> hello")) empty_sys tt)
  = Threw (Error "Invalid regular expression")
  /\ logs (memory (run (scripted Sample.busy)
                     (setupWebhook Sample.hmac Sample.formatError Sample.new_RegExp
                        SampleWeb.stringify Sample.unclosed SampleWeb.now
                        (SampleWeb.signed "1700000000" (Sample.payload "<@U(> hello"))
                        no_exchange) empty_sys tt))
     = [(Info, "Received mention from user U2 in channel C1");
        (Err, "Error processing Slack event: Invalid regular expression")]
  /\ processingMessages
       (memory (run (scripted Sample.busy)
                  (setupWebhook Sample.hmac Sample.formatError Sample.new_RegExp
                     SampleWeb.stringify Sample.unclosed SampleWeb.now
                     (SampleWeb.signed "1700000000" (Sample.payload "<@U(> hello"))
                     no_exchange) empty_sys tt))
     = processingMessages empty_sys.
Proof.
  pose proof (route_runs_handleEvent Sample.hmac Sample.formatError Sample.new_RegExp
                SampleWeb.stringify unit (scripted Sample.busy) Sample.unclosed
                SampleWeb.now
                (SampleWeb.signed "1700000000" (Sample.payload "<@U(> hello"))
                empty_sys tt) as [Hrun Hset].
  split; [reflexivity|]. split; [|exact Hset].
  assert (Ht : "1700000000" <> "") by discriminate.
  destruct (Hrun _ _ eq_refl eq_refl (sample_signature_nonempty _ _) Ht
              (sample_signature_verifies _) eq_refl)
    as (_ & _ & Hmem & _).
  exact (f_equal logs Hmem).
Defined.
